(** * Telemetry analyser: [analyze_telemetry.py]

    A shallow embedding of the vehicle telemetry analyser and the
    verification of its detectors, reporters and entry point.

    Numbers.  Telemetry samples and thresholds are decimal numbers; they
    are modelled as exact rationals ([Q]), so [9.81] is [981/100].  The
    rounding of binary64 arithmetic, infinities and NaN are outside the
    model.  A missing value (polars [null], python [None]) is [None].

    Tables.  A polars [DataFrame] is a schema (the column names, in
    order) and the rows in file order; a row holds one cell per column.
    Polars expressions ([pl.col("v_vel") > k]) are evaluated the way
    polars does it: the expression is evaluated over the whole frame to a
    series, and [filter] keeps the rows where the resulting mask is
    true.

    Output.  [print] appends a line to the trace of the run.  An f-string
    is kept as the list of its fragments, a formatted number as the
    number with its format, so that no decimal rendering is needed. *)

From Stdlib Require Import QArith List String Bool Arith ZArith Lia Lqa.
Import ListNotations.
Local Open Scope Q_scope.
Local Open Scope string_scope.

(** ** Exceptions and results *)

Inductive exn : Type :=
| ColumnNotFoundError (name : string)
| DuplicateError (name : string)
| FileNotFoundError (path : string)
| ComputeError
| IndexError
| KeyError (name : string)
| TypeError
| ZeroDivisionError
| SystemExit (code : Z).

Inductive result (A : Type) : Type :=
| Ok (a : A)
| Raise (e : exn).

Arguments Ok {A} a.
Arguments Raise {A} e.

Definition rbind {A B : Type} (r : result A) (f : A -> result B) : result B :=
  match r with
  | Ok a => f a
  | Raise e => Raise e
  end.

Declare Scope result_scope.
Delimit Scope result_scope with result.
Notation "'let?' x ':=' r 'in' k" := (rbind r (fun x => k))
  (at level 10, x name, r at level 100, k at level 200) : result_scope.

(** ** Strict comparison on rationals *)

Definition Qlt_bool (x y : Q) : bool := negb (Qle_bool y x).

(** ** The polars fragment used by the analyser *)

Module Polars.

(** A cell is a number or null. *)
Definition cell : Type := option Q.
Definition row : Type := list cell.
Definition Series : Type := list cell.
Definition Mask : Type := list (option bool).

Record DataFrame : Type := mkDataFrame {
  columns : list string;
  rows : list row
}.

(** [len(df)], [df.height] *)
Definition height (df : DataFrame) : nat := List.length (rows df).

(** Position of a column in the schema. *)
Fixpoint index_of (name : string) (cs : list string) : option nat :=
  match cs with
  | [] => None
  | c :: cs' =>
      if String.eqb c name then Some O
      else option_map S (index_of name cs')
  end.

Definition has_column (name : string) (cs : list string) : bool :=
  match index_of name cs with
  | Some _ => true
  | None => false
  end.

(** The cell of a row under the column at position [i]. *)
Definition cell_nth (i : nat) (r : row) : cell := nth i r None.

(** [df["name"]]: the column as a series. *)
Definition get_column (df : DataFrame) (name : string) : result Series :=
  match index_of name (columns df) with
  | Some i => Ok (map (cell_nth i) (rows df))
  | None => Raise (ColumnNotFoundError name)
  end.

(** *** Expressions *)

(** Numeric expressions: [pl.col(name)], a python number lifted to a
    literal, and [e.diff()]. *)
Inductive expr : Type :=
| col (name : string)
| lit (x : Q)
| diff (e : expr).

(** Boolean expressions: comparisons and [&]. *)
Inductive bexpr : Type :=
| gt (a b : expr)
| lt (a b : expr)
| ge (a b : expr)
| le (a b : expr)
| eq (a b : expr)
| and (p q : bexpr).

(** Arithmetic and comparison propagate null. *)
Definition cell_sub (a b : cell) : cell :=
  match a, b with
  | Some x, Some y => Some (x - y)
  | _, _ => None
  end.

Definition cell_cmp (f : Q -> Q -> bool) (a b : cell) : option bool :=
  match a, b with
  | Some x, Some y => Some (f x y)
  | _, _ => None
  end.

(** Kleene conjunction, as polars' [&] on nullable booleans. *)
Definition mask_and (a b : option bool) : option bool :=
  match a, b with
  | Some false, _ => Some false
  | _, Some false => Some false
  | Some true, Some true => Some true
  | _, _ => None
  end.

Fixpoint zip_with {A B C : Type} (f : A -> B -> C) (xs : list A) (ys : list B)
  : list C :=
  match xs, ys with
  | x :: xs', y :: ys' => f x y :: zip_with f xs' ys'
  | _, _ => []
  end.

(** [s.diff()]: the first value is null, every other one is the value
    minus its predecessor. *)
Fixpoint diff_from (prev : cell) (s : Series) : Series :=
  match s with
  | [] => []
  | x :: s' => cell_sub x prev :: diff_from x s'
  end.

Definition series_diff (s : Series) : Series :=
  match s with
  | [] => []
  | x :: s' => None :: diff_from x s'
  end.

Fixpoint eval (df : DataFrame) (e : expr) : result Series :=
  match e with
  | col name => get_column df name
  | lit x => Ok (map (fun _ => Some x) (rows df))
  | diff e' =>
      match eval df e' with
      | Ok s => Ok (series_diff s)
      | Raise err => Raise err
      end
  end.

Definition eval_cmp (f : Q -> Q -> bool) (df : DataFrame) (a b : expr)
  : result Mask :=
  match eval df a with
  | Ok sa =>
      match eval df b with
      | Ok sb => Ok (zip_with (cell_cmp f) sa sb)
      | Raise err => Raise err
      end
  | Raise err => Raise err
  end.

Fixpoint eval_bool (df : DataFrame) (p : bexpr) : result Mask :=
  match p with
  | gt a b => eval_cmp (fun x y => Qlt_bool y x) df a b
  | lt a b => eval_cmp Qlt_bool df a b
  | ge a b => eval_cmp (fun x y => Qle_bool y x) df a b
  | le a b => eval_cmp Qle_bool df a b
  | eq a b => eval_cmp Qeq_bool df a b
  | and p1 p2 =>
      match eval_bool df p1 with
      | Ok m1 =>
          match eval_bool df p2 with
          | Ok m2 => Ok (zip_with mask_and m1 m2)
          | Raise err => Raise err
          end
      | Raise err => Raise err
      end
  end.

(** *** Frame operations *)

(** The rows whose mask entry is true; false and null both drop the row. *)
Fixpoint keep (m : Mask) (rs : list row) : list row :=
  match m, rs with
  | Some true :: m', r :: rs' => r :: keep m' rs'
  | _ :: m', _ :: rs' => keep m' rs'
  | _, _ => []
  end.

(** [df.filter(p)] *)
Definition filter (df : DataFrame) (p : bexpr) : result DataFrame :=
  match eval_bool df p with
  | Ok m => Ok (mkDataFrame (columns df) (keep m (rows df)))
  | Raise err => Raise err
  end.

(** Writing a cell at a position of a row. *)
Fixpoint set_nth (i : nat) (c : cell) (r : row) : row :=
  match i, r with
  | O, _ :: r' => c :: r'
  | S i', x :: r' => x :: set_nth i' c r'
  | _, [] => []
  end.

(** A row with its cell under [name] set: the column is replaced when the
    schema has it and appended otherwise. *)
Definition put_cell (cs : list string) (name : string) (r : row) (c : cell)
  : row :=
  match index_of name cs with
  | Some i => set_nth i c r
  | None => (r ++ [c])%list
  end.

Definition put_name (cs : list string) (name : string) : list string :=
  match index_of name cs with
  | Some _ => cs
  | None => (cs ++ [name])%list
  end.

(** [df.with_columns(e.alias(name))] *)
Definition with_columns (df : DataFrame) (e : expr) (name : string)
  : result DataFrame :=
  match eval df e with
  | Ok s =>
      Ok (mkDataFrame (put_name (columns df) name)
            (zip_with (put_cell (columns df) name) (rows df) s))
  | Raise err => Raise err
  end.

(** Positions of the selected columns; a missing name is an error, and so
    is a name selected twice. *)
Fixpoint select_indices (cs : list string) (names : list string)
  : result (list nat) :=
  match names with
  | [] => Ok []
  | n :: names' =>
      match index_of n cs with
      | None => Raise (ColumnNotFoundError n)
      | Some i =>
          if has_column n names' then Raise (DuplicateError n)
          else
            match select_indices cs names' with
            | Ok idxs => Ok (i :: idxs)
            | Raise err => Raise err
            end
      end
  end.

(** [df.select(names)]; selecting nothing gives the empty frame, which
    has no rows. *)
Definition select (df : DataFrame) (names : list string) : result DataFrame :=
  match names with
  | [] => Ok (mkDataFrame [] [])
  | _ =>
      match select_indices (columns df) names with
      | Ok idxs =>
          Ok (mkDataFrame names
                (map (fun r => map (fun i => cell_nth i r) idxs) (rows df)))
      | Raise err => Raise err
      end
  end.

(** *** Series aggregates; nulls are skipped *)

Fixpoint non_null (s : Series) : list Q :=
  match s with
  | [] => []
  | Some x :: s' => x :: non_null s'
  | None :: s' => non_null s'
  end.

Definition Qmin_b (x y : Q) : Q := if Qle_bool x y then x else y.
Definition Qmax_b (x y : Q) : Q := if Qle_bool x y then y else x.

Definition fold1 (f : Q -> Q -> Q) (xs : list Q) : cell :=
  match xs with
  | [] => None
  | x :: xs' => Some (fold_left f xs' x)
  end.

(** [s.min()], [s.max()], [s.mean()]: [None] when there is no value. *)
Definition series_min (s : Series) : cell := fold1 Qmin_b (non_null s).
Definition series_max (s : Series) : cell := fold1 Qmax_b (non_null s).

Definition series_mean (s : Series) : cell :=
  match non_null s with
  | [] => None
  | xs => Some (fold_left Qplus xs 0 / inject_Z (Z.of_nat (List.length xs)))
  end.

(** [s.item(0)] and [s.item(-1)] *)
Definition item_first (s : Series) : result cell :=
  match s with
  | [] => Raise IndexError
  | c :: _ => Ok c
  end.

Definition item_last (s : Series) : result cell :=
  match s with
  | [] => Raise IndexError
  | _ => Ok (last s None)
  end.

(** [df.row(0, named=True)]: the first row as a dictionary. *)
Definition row_named (df : DataFrame) : result (list (string * cell)) :=
  match rows df with
  | [] => Raise IndexError
  | r :: _ => Ok (combine (columns df) r)
  end.

Fixpoint dict_get (d : list (string * cell)) (name : string) : result cell :=
  match d with
  | [] => Raise (KeyError name)
  | (k, c) :: d' => if String.eqb k name then Ok c else dict_get d' name
  end.

End Polars.

Import Polars.

(** ** The detectors *)

(** [find_launches(df, v_vel_threshold=10.0)] *)
Definition find_launches (df : DataFrame) (v_vel_threshold : Q)
  : result DataFrame :=
  (let? df' := with_columns df (diff (col "v_vel")) "v_vel_delta" in
   filter df' (gt (col "v_vel_delta") (lit v_vel_threshold)))%result.

(** [find_high_velocity(df, v_vel_threshold=15.0)] *)
Definition find_high_velocity (df : DataFrame) (v_vel_threshold : Q)
  : result DataFrame :=
  filter df (gt (col "v_vel") (lit v_vel_threshold)).

(** [find_force_spikes(df, weight, ratio_threshold=3.0)] *)
Definition find_force_spikes (df : DataFrame) (weight ratio_threshold : Q)
  : result DataFrame :=
  filter df (gt (col "hover_mag") (lit (weight * ratio_threshold))).

(** [get_context(df, time, window=0.5)] *)
Definition get_context (df : DataFrame) (time window : Q) : result DataFrame :=
  filter df (and (ge (col "t") (lit (time - window)))
                 (le (col "t") (lit (time + window)))).

(** The defaults of the keyword arguments. *)
Definition find_launches_default : Q := 10.0.
Definition find_high_velocity_default : Q := 15.0.
Definition find_force_spikes_default : Q := 3.0.
Definition get_context_default : Q := 0.5.

(** ** Output and effects *)

(** Display settings of [pl.Config] in force when a frame is printed. *)
Record Config : Type := mkConfig {
  tbl_rows : nat;
  fmt_float : string
}.

(** The pieces of a printed line. *)
Inductive frag : Type :=
| Str (s : string)                      (* literal text *)
| Int (n : nat)                         (* [{len(df)}] *)
| Fixed (digits : nat) (x : Q)          (* [{x:.3f}] *)
| Float (x : Q)                         (* [{x}] *)
| PathText (path : string)              (* [{args.file}] *)
| Table (cfg : Config) (df : DataFrame) (* [print(df)] *).

Definition line : Type := list frag.

(** What a run does to the outside world, in order. *)
Inductive event : Type :=
| Print (l : line)
| ReadCsv (path : string).

(** A computation yields its trace and a value or the exception that
    stopped it. *)
Definition IO (A : Type) : Type := (list event * result A)%type.

Definition ret {A : Type} (a : A) : IO A := ([], Ok a).

Definition bind {A B : Type} (m : IO A) (f : A -> IO B) : IO B :=
  match m with
  | (tr, Ok a) => let (tr', r) := f a in ((tr ++ tr')%list, r)
  | (tr, Raise e) => (tr, Raise e)
  end.

Definition raise {A : Type} (e : exn) : IO A := ([], Raise e).
Definition lift {A : Type} (r : result A) : IO A := ([], r).
Definition print (l : line) : IO unit := ([Print l], Ok tt).

Declare Scope io_scope.
Delimit Scope io_scope with io.
Notation "x <- c ;; k" := (bind c (fun x => k))
  (at level 61, c at next level, right associativity) : io_scope.
Notation "c ;; k" := (bind c (fun _ => k))
  (at level 61, right associativity) : io_scope.
Local Open Scope io_scope.

(** The trace of a run, and whether it ended normally. *)
Definition trace {A : Type} (m : IO A) : list event := fst m.
Definition outcome {A : Type} (m : IO A) : result A := snd m.

(** The lines written to standard output. *)
Fixpoint printed (tr : list event) : list line :=
  match tr with
  | [] => []
  | Print l :: tr' => l :: printed tr'
  | ReadCsv _ :: tr' => printed tr'
  end.

(** The exit status of the process. *)
Definition exit_status {A : Type} (r : result A) : Z :=
  match r with
  | Ok _ => 0%Z
  | Raise (SystemExit code) => code
  | Raise _ => 1%Z
  end.

(** *** Python values *)

(** A number is needed: arithmetic on [None] is a [TypeError]. *)
Definition py_num (c : cell) : result Q :=
  match c with
  | Some x => Ok x
  | None => Raise TypeError
  end.

(** [{c:.Nf}]: formatting [None] is a [TypeError]. *)
Definition fmt (digits : nat) (c : cell) : result frag :=
  match c with
  | Some x => Ok (Fixed digits x)
  | None => Raise TypeError
  end.

(** [x / y] *)
Definition py_div (x y : Q) : result Q :=
  if Qeq_bool y 0 then Raise ZeroDivisionError else Ok (x / y).

(** Truth value of an optional float: [None] and [0.0] are false. *)
Definition truthy (x : option Q) : bool :=
  match x with
  | Some v => negb (Qeq_bool v 0)
  | None => false
  end.

Definition Qlen (df : DataFrame) : Q := inject_Z (Z.of_nat (height df)).

Definition newline : string := String (Ascii.ascii_of_nat 10) EmptyString.
Definition NL : frag := Str newline.

Fixpoint string_times (n : nat) (s : string) : string :=
  match n with
  | O => EmptyString
  | S n' => s ++ string_times n' s
  end.

(** ["=" * 60] *)
Definition rule : string := Eval cbv in string_times 60 "=".

(** ** The reporters *)

(** *** [print_summary] *)

Definition summary_header : IO unit :=
  print [Str rule] ;;
  print [Str "TELEMETRY SUMMARY"] ;;
  print [Str rule].

(** Time range, sample count, mass and weight; yields the weight. *)
Definition summary_range (df : DataFrame) : IO Q :=
  t1 <- lift (get_column df "t") ;;
  let t_min := series_min t1 in
  t2 <- lift (get_column df "t") ;;
  let t_max := series_max t2 in
  m <- lift (get_column df "mass") ;;
  mass_item <- lift (item_last m) ;;
  mass <- lift (py_num mass_item) ;;
  let weight := mass * 9.81 in
  f_min <- lift (fmt 2 t_min) ;;
  f_max <- lift (fmt 2 t_max) ;;
  hi <- lift (py_num t_max) ;;
  lo <- lift (py_num t_min) ;;
  print [NL; Str "Time range: "; f_min; Str "s - "; f_max; Str "s (";
         Fixed 2 (hi - lo); Str "s total)"] ;;
  print [Str "Samples: "; Int (height df)] ;;
  print [Str "Mass: "; Fixed 1 mass; Str " kg"] ;;
  print [Str "Weight: "; Fixed 0 weight; Str " N"] ;;
  ret weight.

(** [valid_alt] and [no_raycast] of the altitude block. *)
Definition valid_alt (df : DataFrame) : result DataFrame :=
  filter df (gt (col "altitude") (lit 0)).

Definition no_raycast (df : DataFrame) : result DataFrame :=
  filter df (lt (col "altitude") (lit 0)).

(** The line of the samples without raycast hit: their number and their
    share of all samples. *)
Definition no_raycast_line (n : nat) (share : Q) : line :=
  [Str "  No raycast hit: "; Int n; Str " samples ("; Fixed 1 (share * 100);
   Str "%)"].

Definition summary_altitude (df : DataFrame) : IO unit :=
  print [NL; Str "--- Altitude ---"] ;;
  valid <- lift (valid_alt df) ;;
  (if (0 <? height valid)%nat then
     a1 <- lift (get_column valid "altitude") ;;
     f1 <- lift (fmt 3 (series_min a1)) ;;
     print [Str "  Min (valid): "; f1; Str " m"] ;;
     a2 <- lift (get_column valid "altitude") ;;
     f2 <- lift (fmt 3 (series_max a2)) ;;
     print [Str "  Max (valid): "; f2; Str " m"] ;;
     a3 <- lift (get_column valid "altitude") ;;
     f3 <- lift (fmt 3 (series_mean a3)) ;;
     print [Str "  Mean (valid): "; f3; Str " m"]
   else ret tt) ;;
  nohit <- lift (no_raycast df) ;;
  share <- lift (py_div (Qlen nohit) (Qlen df)) ;;
  print (no_raycast_line (height nohit) share).

Definition summary_velocity (df : DataFrame) : IO unit :=
  print [NL; Str "--- Velocity ---"] ;;
  s1 <- lift (get_column df "speed") ;;
  f1 <- lift (fmt 1 (series_max s1)) ;;
  s2 <- lift (get_column df "speed") ;;
  top <- lift (py_num (series_max s2)) ;;
  print [Str "  Max speed: "; f1; Str " m/s ("; Fixed 1 (top * 3.6);
         Str " km/h)"] ;;
  v1 <- lift (get_column df "v_vel") ;;
  f2 <- lift (fmt 2 (series_max v1)) ;;
  print [Str "  Max v_vel (up): "; f2; Str " m/s"] ;;
  v2 <- lift (get_column df "v_vel") ;;
  f3 <- lift (fmt 2 (series_min v2)) ;;
  print [Str "  Min v_vel (down): "; f3; Str " m/s"].

Definition summary_forces (df : DataFrame) (weight : Q) : IO unit :=
  print [NL; Str "--- Forces ---"] ;;
  h1 <- lift (get_column df "hover_mag") ;;
  f1 <- lift (fmt 0 (series_max h1)) ;;
  print [Str "  Max hover force: "; f1; Str " N"] ;;
  h2 <- lift (get_column df "hover_mag") ;;
  top <- lift (py_num (series_max h2)) ;;
  ratio <- lift (py_div top weight) ;;
  print [Str "  Max hover/weight: "; Fixed 2 ratio; Str "x"] ;;
  g <- lift (filter df (eq (col "grounded") (lit 1))) ;;
  h3 <- lift (get_column g "hover_mag") ;;
  f3 <- lift (fmt 0 (series_mean h3)) ;;
  print [Str "  Mean hover (grounded): "; f3; Str " N"].

Definition summary_grounded (df : DataFrame) : IO unit :=
  print [NL; Str "--- Grounded ---"] ;;
  g <- lift (filter df (eq (col "grounded") (lit 1))) ;;
  share <- lift (py_div (Qlen g) (Qlen df)) ;;
  let grounded_pct := share * 100 in
  print [Str "  Time grounded: "; Fixed 1 grounded_pct; Str "%"].

(** The lines of the problem-detection block. *)
Definition high_velocity_line (n : nat) : line :=
  [Str "  HIGH VERTICAL VELOCITY: "; Int n; Str " samples with v_vel > 15 m/s"].

Definition force_spikes_line (n : nat) : line :=
  [Str "  FORCE SPIKES: "; Int n; Str " samples with hover > 5x weight"].

Definition velocity_spikes_line (n : nat) : line :=
  [Str "  VELOCITY SPIKES: "; Int n; Str " samples with v_vel delta > 10 m/s"].

Definition summary_problems (df : DataFrame) (weight : Q) : IO unit :=
  print [NL; Str "--- PROBLEM DETECTION ---"] ;;
  high_vvel <- lift (find_high_velocity df 15.0) ;;
  (if (0 <? height high_vvel)%nat then
     print (high_velocity_line (height high_vvel)) ;;
     first <- lift (row_named high_vvel) ;;
     c1 <- lift (dict_get first "t") ;;
     f1 <- lift (fmt 3 c1) ;;
     c2 <- lift (dict_get first "v_vel") ;;
     f2 <- lift (fmt 1 c2) ;;
     c3 <- lift (dict_get first "altitude") ;;
     f3 <- lift (fmt 2 c3) ;;
     print [Str "    First at t="; f1; Str "s: v_vel="; f2; Str " m/s, alt=";
            f3; Str "m"]
   else ret tt) ;;
  force_spikes <- lift (find_force_spikes df weight 5.0) ;;
  (if (0 <? height force_spikes)%nat then
     print (force_spikes_line (height force_spikes)) ;;
     first <- lift (row_named force_spikes) ;;
     c1 <- lift (dict_get first "t") ;;
     f1 <- lift (fmt 3 c1) ;;
     c2 <- lift (dict_get first "hover_mag") ;;
     f2 <- lift (fmt 0 c2) ;;
     c3 <- lift (dict_get first "hover_mag") ;;
     force <- lift (py_num c3) ;;
     ratio <- lift (py_div force weight) ;;
     print [Str "    First at t="; f1; Str "s: force="; f2; Str "N (";
            Fixed 1 ratio; Str "x weight)"]
   else ret tt) ;;
  launches <- lift (find_launches df 10.0) ;;
  (if (0 <? height launches)%nat then
     print (velocity_spikes_line (height launches))
   else ret tt).

Definition print_summary (df : DataFrame) : IO unit :=
  summary_header ;;
  weight <- summary_range df ;;
  summary_altitude df ;;
  summary_velocity df ;;
  summary_forces df weight ;;
  summary_grounded df ;;
  summary_problems df weight.

(** *** [print_around_time] *)

(** The preferred columns of the around-time report. *)
Definition around_cols : list string :=
  ["t"; "altitude"; "v_vel"; "grounded"; "hover_mag"; "pitch_deg"; "speed"].

(** [[c for c in cols if c in context.columns]] *)
Definition available_cols (cols : list string) (df : DataFrame) : list string :=
  List.filter (fun c => has_column c (columns df)) cols.

Definition no_data_line (time : Q) : line :=
  [Str "No data found around t="; Float time; Str "s"].

Definition around_header (time window : Q) : line :=
  [Str "Telemetry around t="; Float time; Str "s (±"; Float window;
   Str "s):"; NL].

Definition print_around_time (df : DataFrame) (time window : Q) : IO unit :=
  context <- lift (get_context df time window) ;;
  if (height context =? 0)%nat then
    print (no_data_line time)
  else
    print (around_header time window) ;;
    let available := available_cols around_cols context in
    shown <- lift (select context available) ;;
    print [Table (mkConfig 100 "full") shown].

(** *** [print_problem_context] *)

Definition context_cols : list string :=
  ["t"; "altitude"; "v_vel"; "grounded"; "hover_mag"].

(** The display default of [fmt_float]. *)
Definition fmt_float_default : string := "mixed".

Definition print_problem_context (df : DataFrame) : IO unit :=
  m <- lift (get_column df "mass") ;;
  mass_item <- lift (item_last m) ;;
  mass <- lift (py_num mass_item) ;;
  let weight := mass * 9.81 in
  high_vvel <- lift (find_high_velocity df 15.0) ;;
  (if (0 <? height high_vvel)%nat then
     ts <- lift (get_column high_vvel "t") ;;
     first_item <- lift (item_first ts) ;;
     print [NL; Str rule] ;;
     f <- lift (fmt 3 first_item) ;;
     print [Str "CONTEXT: First high v_vel at t="; f; Str "s"] ;;
     print [Str rule] ;;
     first_time <- lift (py_num first_item) ;;
     context <- lift (get_context df first_time 0.3) ;;
     shown <- lift (select context context_cols) ;;
     print [Table (mkConfig 50 fmt_float_default) shown]
   else ret tt) ;;
  force_spikes <- lift (find_force_spikes df weight 5.0) ;;
  (if (0 <? height force_spikes)%nat then
     ts <- lift (get_column force_spikes "t") ;;
     first_item <- lift (item_first ts) ;;
     print [NL; Str rule] ;;
     f <- lift (fmt 3 first_item) ;;
     print [Str "CONTEXT: First force spike at t="; f; Str "s"] ;;
     print [Str rule] ;;
     first_time <- lift (py_num first_item) ;;
     context <- lift (get_context df first_time 0.3) ;;
     shown <- lift (select context context_cols) ;;
     print [Table (mkConfig 50 fmt_float_default) shown]
   else ret tt).

(** ** The entry point *)

(** The file system as the analyser sees it: a path is absent, or it
    holds a file that [pl.read_csv] parses into a frame or rejects. *)
Definition filesystem : Type := string -> option (result DataFrame).

(** [path.exists()] *)
Definition path_exists (fs : filesystem) (path : string) : bool :=
  match fs path with
  | Some _ => true
  | None => false
  end.

(** [load_telemetry(path)] *)
Definition load_telemetry (fs : filesystem) (path : string) : IO DataFrame :=
  ([ReadCsv path],
   match fs path with
   | Some r => r
   | None => Raise (FileNotFoundError path)
   end).

(** The namespace returned by [parser.parse_args()]: [--around] is [None]
    unless given, [--window] defaults to 0.5. *)
Record Namespace : Type := mkNamespace {
  file : string;
  summary : bool;
  context : bool;
  around : option Q;
  window : Q
}.

(** [any([args.summary, args.context, args.around])] *)
Definition any_action (args : Namespace) : bool :=
  summary args || context args || truthy (around args).

Definition file_not_found_line (path : string) : line :=
  [Str "Error: File not found: "; PathText path].

Definition main (fs : filesystem) (args : Namespace) : IO unit :=
  if negb (path_exists fs (file args)) then
    print (file_not_found_line (file args)) ;;
    raise (SystemExit 1)
  else
    df <- load_telemetry fs (file args) ;;
    let args :=
      if negb (any_action args)
      then mkNamespace (file args) true true (around args) (window args)
      else args in
    (if summary args then print_summary df else ret tt) ;;
    (if context args then print_problem_context df else ret tt) ;;
    match around args with
    | Some time => print_around_time df time (window args)
    | None => ret tt
    end.

(** ** Vocabulary of the specification *)

(** The cell of a row under a named column of the schema [cs]. *)
Definition cell_at (cs : list string) (name : string) (r : row) : cell :=
  match index_of name cs with
  | Some i => cell_nth i r
  | None => None
  end.

(** The cell holds a number strictly greater than [k]. *)
Definition above (k : Q) (c : cell) : Prop :=
  exists x, c = Some x /\ k < x.

Definition aboveb (k : Q) (c : cell) : bool :=
  match c with
  | Some x => Qlt_bool k x
  | None => false
  end.

(** The cell holds a number strictly less than [k]. *)
Definition below (k : Q) (c : cell) : Prop :=
  exists x, c = Some x /\ x < k.

Definition belowb (k : Q) (c : cell) : bool :=
  match c with
  | Some x => Qlt_bool x k
  | None => false
  end.

(** The cell holds a number in the closed interval [[lo, hi]]. *)
Definition within (lo hi : Q) (c : cell) : Prop :=
  exists x, c = Some x /\ lo <= x /\ x <= hi.

Definition withinb (lo hi : Q) (c : cell) : bool :=
  match c with
  | Some x => Qle_bool lo x && Qle_bool x hi
  | None => false
  end.

(** The cell holds the number zero. *)
Definition is_zero (c : cell) : Prop :=
  exists x, c = Some x /\ x == 0.

(** [l1] is [l2] with some elements left out, the order kept. *)
Inductive Subseq {A : Type} : list A -> list A -> Prop :=
| Subseq_nil : Subseq [] []
| Subseq_skip (x : A) (l1 l2 : list A) : Subseq l1 l2 -> Subseq l1 (x :: l2)
| Subseq_cons (x : A) (l1 l2 : list A) :
    Subseq l1 l2 -> Subseq (x :: l1) (x :: l2).

(** Every row is as wide as the schema. *)
Definition well_formed (df : DataFrame) : Prop :=
  Forall (fun r => List.length r = List.length (columns df)) (rows df).

(** The row [r] extended with its velocity delta [d]. *)
Definition with_delta (cs : list string) (r : row) (d : cell) : row :=
  put_cell cs "v_vel_delta" r d.

(** The velocity delta of every row: [v_vel] minus the [v_vel] of the row
    before, and null for the first row. *)
Definition v_vel_deltas (df : DataFrame) : Series :=
  series_diff (map (cell_at (columns df) "v_vel") (rows df)).

(** The rows whose delta is above the threshold, each paired with its
    delta. *)
Definition launch_rows (df : DataFrame) (k : Q) : list (row * cell) :=
  List.filter (fun rd => aboveb k (snd rd))
    (combine (rows df) (v_vel_deltas df)).

(** The mass the reports use: the [mass] of the last row. *)
Definition last_mass (df : DataFrame) : result Q :=
  (let? m := get_column df "mass" in
   let? c := item_last m in
   py_num c)%result.

(** The lines that report a number of flagged samples: a text, a count
    and a text.  No other line of the reports has this shape. *)
Definition is_count_line (e : event) : bool :=
  match e with
  | Print [Str _; Int _; Str _] => true
  | _ => false
  end.

(** The count line of a detection, printed when there is a match. *)
Definition count_line (mk : nat -> line) (found : DataFrame) : list event :=
  if (0 <? height found)%nat then [Print (mk (height found))] else [].

(** The event is a printed line, not a read of a file. *)
Definition is_print (e : event) : bool :=
  match e with
  | Print _ => true
  | ReadCsv _ => false
  end.

(** The run does nothing but print. *)
Definition only_prints {A : Type} (m : IO A) : Prop :=
  forallb is_print (trace m) = true.

(** The cell holds a number equal to [k]. *)
Definition equals (k : Q) (c : cell) : Prop :=
  exists x, c = Some x /\ x == k.

Definition equalsb (k : Q) (c : cell) : bool :=
  match c with
  | Some x => Qeq_bool x k
  | None => false
  end.

(** The three lines of the summary banner. *)
Definition banner : list event :=
  [Print [Str rule]; Print [Str "TELEMETRY SUMMARY"]; Print [Str rule]].

(** The heading of a section of the summary: a blank line and a title. *)
Definition is_heading (e : event) : bool :=
  match e with
  | Print [Str s; Str _] => String.eqb s newline
  | _ => false
  end.

(** The title line of a block of the context report. *)
Definition context_title (what : string) (t : Q) : line :=
  [Str what; Fixed 3 t; Str "s"].

(** ** Sample tables *)

Definition telemetry_columns : list string :=
  ["t"; "altitude"; "v_vel"; "speed"; "hover_mag"; "grounded"; "pitch_deg";
   "mass"].

Definition sample (t altitude v_vel speed hover_mag grounded pitch mass : Q)
  : row :=
  map Some [t; altitude; v_vel; speed; hover_mag; grounded; pitch; mass].

(** A short flight: on the ground, a launch with the altitude reading at
    exactly zero, a sample without raycast hit, and a landing approach. *)
Definition flight : DataFrame :=
  mkDataFrame telemetry_columns
    [ sample 0.0 0.5 0 1 12000 1 0 1200;
      sample 0.1 0 11 11 40000 1 1 1200;
      sample 0.2 (-1) 16 16 60000 0 2 1200;
      sample 0.3 2.5 15 15 0 0 3 1200 ].

(** A run whose largest hover force is between three and five times the
    weight (1200 kg weigh 11772 N). *)
Definition mild_spike : DataFrame :=
  mkDataFrame telemetry_columns
    [ sample 0.0 0.5 0 1 12000 1 0 1200;
      sample 0.1 0.6 1 2 40000 1 1 1200 ].

(** A single sample without hover force. *)
Definition idle : DataFrame :=
  mkDataFrame ["t"; "hover_mag"] [ [Some 0; Some 0] ].

(** Two samples with vertical velocities 0 and 11. *)
Definition two_rows : DataFrame :=
  mkDataFrame ["t"; "v_vel"] [ [Some 0; Some 0]; [Some 0.1; Some 11] ].

(** A file system holding the flight under one name. *)
Definition disk : filesystem :=
  fun path =>
    if String.eqb path "telemetry.csv" then Some (Ok flight) else None.

(** * Verification *)

(** ** Comparisons *)

Lemma Qlt_bool_iff (x y : Q) : Qlt_bool x y = true <-> x < y.
Proof.
  unfold Qlt_bool. rewrite negb_true_iff. split; intro H.
  - apply Qnot_le_lt. intro Hle. apply Qle_bool_iff in Hle. congruence.
  - destruct (Qle_bool y x) eqn:E; [|reflexivity].
    apply Qle_bool_iff in E. exfalso. exact (Qlt_not_le _ _ H E).
Qed.

Lemma aboveb_spec (k : Q) (c : cell) : aboveb k c = true <-> above k c.
Proof.
  unfold aboveb, above. destruct c as [x|].
  - rewrite Qlt_bool_iff. split.
    + intro H. exists x. split; [reflexivity | exact H].
    + intros [y [Hy H]]. injection Hy as <-. exact H.
  - split; [discriminate | intros [y [Hy _]]; discriminate].
Qed.

Lemma belowb_spec (k : Q) (c : cell) : belowb k c = true <-> below k c.
Proof.
  unfold belowb, below. destruct c as [x|].
  - rewrite Qlt_bool_iff. split.
    + intro H. exists x. split; [reflexivity | exact H].
    + intros [y [Hy H]]. injection Hy as <-. exact H.
  - split; [discriminate | intros [y [Hy _]]; discriminate].
Qed.

Lemma withinb_spec (lo hi : Q) (c : cell) :
  withinb lo hi c = true <-> within lo hi c.
Proof.
  unfold withinb, within. destruct c as [x|].
  - rewrite andb_true_iff, !Qle_bool_iff. split.
    + intro H. exists x. split; [reflexivity | exact H].
    + intros [y [Hy H]]. injection Hy as <-. exact H.
  - split; [discriminate | intros [y [Hy _]]; discriminate].
Qed.

(** ** Subsequences *)

Lemma Subseq_refl {A : Type} (l : list A) : Subseq l l.
Proof. induction l; [apply Subseq_nil | apply Subseq_cons; assumption]. Qed.

Lemma Subseq_filter {A : Type} (p : A -> bool) (l : list A) :
  Subseq (List.filter p l) l.
Proof.
  induction l as [|x l IH]; simpl.
  - constructor.
  - destruct (p x); [apply Subseq_cons | apply Subseq_skip]; exact IH.
Qed.

Lemma Subseq_In {A : Type} (l1 l2 : list A) :
  Subseq l1 l2 -> forall x, In x l1 -> In x l2.
Proof.
  induction 1 as [|y l1 l2 _ IH|y l1 l2 _ IH]; intros x Hx.
  - exact Hx.
  - right. apply IH, Hx.
  - destruct Hx as [<-|Hx]; [left; reflexivity | right; apply IH, Hx].
Qed.

Lemma Subseq_length {A : Type} (l1 l2 : list A) :
  Subseq l1 l2 -> (List.length l1 <= List.length l2)%nat.
Proof. induction 1; simpl; lia. Qed.

Lemma Subseq_map {A B : Type} (f : A -> B) (l1 l2 : list A) :
  Subseq l1 l2 -> Subseq (map f l1) (map f l2).
Proof. induction 1; simpl; constructor; assumption. Qed.

(** Filtering by a stronger predicate gives a subsequence. *)
Lemma Subseq_filter_impl {A : Type} (p q : A -> bool) (l : list A) :
  (forall x, In x l -> p x = true -> q x = true) ->
  Subseq (List.filter p l) (List.filter q l).
Proof.
  induction l as [|x l IH]; intro H; simpl.
  - constructor.
  - assert (IH' : Subseq (List.filter p l) (List.filter q l)).
    { apply IH. intros y Hy. apply H. right. exact Hy. }
    destruct (p x) eqn:Ep.
    + rewrite (H x (or_introl eq_refl) Ep). apply Subseq_cons, IH'.
    + destruct (q x); [apply Subseq_skip|]; exact IH'.
Qed.

(** ** Schemas *)

Lemma index_of_In (name : string) (cs : list string) :
  In name cs -> exists i, index_of name cs = Some i.
Proof.
  induction cs as [|c cs IH]; simpl; [intros []|]. intro H.
  destruct (String.eqb c name) eqn:E.
  - exists O. reflexivity.
  - destruct H as [H|H].
    + subst. rewrite String.eqb_refl in E. discriminate.
    + destruct (IH H) as [i ->]. exists (S i). reflexivity.
Qed.

Lemma index_of_Some (name : string) (cs : list string) (i : nat) :
  index_of name cs = Some i -> In name cs /\ (i < List.length cs)%nat.
Proof.
  revert i. induction cs as [|c cs IH]; simpl; [discriminate|]. intro i.
  destruct (String.eqb c name) eqn:E.
  - intro H. injection H as <-. apply String.eqb_eq in E. split; [auto | lia].
  - destruct (index_of name cs) as [j|]; simpl; [|discriminate].
    intro H. injection H as <-. destruct (IH j eq_refl). split; [auto | lia].
Qed.

Lemma index_of_None (name : string) (cs : list string) :
  index_of name cs = None -> ~ In name cs.
Proof.
  intros H Hin. destruct (index_of_In name cs Hin) as [i Hi]. congruence.
Qed.

Lemma has_column_In (name : string) (cs : list string) :
  has_column name cs = true <-> In name cs.
Proof.
  unfold has_column. split.
  - destruct (index_of name cs) eqn:E; [|discriminate].
    intros _. apply (index_of_Some _ _ _ E).
  - intro H. destruct (index_of_In _ _ H) as [i ->]. reflexivity.
Qed.

(** ** Evaluating a row-wise predicate *)

Lemma zip_with_map {A B C D : Type} (h : B -> C -> D) (a : A -> B) (b : A -> C)
  (l : list A) :
  zip_with h (map a l) (map b l) = map (fun x => h (a x) (b x)) l.
Proof. induction l; simpl; congruence. Qed.

(** A mask computed row by row keeps the rows it is true on. *)
Lemma keep_map (g : row -> option bool) (rs : list row) :
  keep (map g rs) rs =
  List.filter (fun r => match g r with Some true => true | _ => false end) rs.
Proof.
  induction rs as [|r rs IH]; simpl; [reflexivity|].
  destruct (g r) as [[|]|]; rewrite IH; reflexivity.
Qed.

(** Filters on a column that the schema has. *)
Section ColumnFilters.

Variable df : DataFrame.
Variable name : string.
Hypothesis Hname : In name (columns df).

(** [df.filter(pl.col(name) > k)] keeps the rows above [k]. *)
Lemma filter_gt (k : Q) :
  filter df (gt (col name) (lit k)) =
  Ok (mkDataFrame (columns df)
        (List.filter (fun r => aboveb k (cell_at (columns df) name r))
           (rows df))).
Proof.
  destruct (index_of_In _ _ Hname) as [i Hi].
  unfold filter, cell_at. simpl. unfold eval_cmp. simpl.
  unfold get_column. rewrite Hi, zip_with_map, keep_map.
  f_equal. f_equal. apply filter_ext. intro r.
  unfold aboveb. destruct (cell_nth i r) as [x|]; simpl; [|reflexivity].
  destruct (Qlt_bool k x); reflexivity.
Qed.

(** [df.filter(pl.col(name) < k)] keeps the rows below [k]. *)
Lemma filter_lt (k : Q) :
  filter df (lt (col name) (lit k)) =
  Ok (mkDataFrame (columns df)
        (List.filter (fun r => belowb k (cell_at (columns df) name r))
           (rows df))).
Proof.
  destruct (index_of_In _ _ Hname) as [i Hi].
  unfold filter, cell_at. simpl. unfold eval_cmp. simpl.
  unfold get_column. rewrite Hi, zip_with_map, keep_map.
  f_equal. f_equal. apply filter_ext. intro r.
  unfold belowb. destruct (cell_nth i r) as [x|]; simpl; [|reflexivity].
  destruct (Qlt_bool x k); reflexivity.
Qed.

(** The conjunction of two bounds keeps the rows inside the interval. *)
Lemma filter_between (lo hi : Q) :
  filter df (and (ge (col name) (lit lo)) (le (col name) (lit hi))) =
  Ok (mkDataFrame (columns df)
        (List.filter (fun r => withinb lo hi (cell_at (columns df) name r))
           (rows df))).
Proof.
  destruct (index_of_In _ _ Hname) as [i Hi].
  unfold filter, cell_at. simpl. unfold eval_cmp. simpl.
  unfold get_column. rewrite Hi, !zip_with_map, keep_map.
  f_equal. f_equal. apply filter_ext. intro r.
  unfold withinb. destruct (cell_nth i r) as [x|]; simpl; [|reflexivity].
  destruct (Qle_bool lo x), (Qle_bool x hi); reflexivity.
Qed.

End ColumnFilters.

(** Whatever the predicate, a filter that succeeds returns a subsequence
    of the rows under the same schema. *)
Lemma keep_Subseq (m : Mask) (rs : list row) : Subseq (keep m rs) rs.
Proof.
  revert m. induction rs as [|r rs IH]; intros [|[[|]|] m]; simpl;
    try apply Subseq_nil; try (apply Subseq_skip, IH).
  - apply Subseq_skip. destruct rs; apply (IH []).
  - apply Subseq_cons, IH.
Qed.

Lemma filter_subtable (df out : DataFrame) (p : bexpr) :
  filter df p = Ok out ->
  columns out = columns df /\ Subseq (rows out) (rows df).
Proof.
  unfold filter. destruct (eval_bool df p) as [m|e]; [|discriminate].
  intro H. injection H as <-. split; [reflexivity | apply keep_Subseq].
Qed.

Lemma Subseq_Forall {A : Type} (P : A -> Prop) (l1 l2 : list A) :
  Subseq l1 l2 -> Forall P l2 -> Forall P l1.
Proof.
  intros Hsub Hall. rewrite Forall_forall in *.
  intros x Hx. apply Hall. exact (Subseq_In _ _ Hsub x Hx).
Qed.

(** A filter keeps a table well formed. *)
Lemma filter_well_formed (df out : DataFrame) (p : bexpr) :
  well_formed df -> filter df p = Ok out -> well_formed out.
Proof.
  intros Hwf H. destruct (filter_subtable _ _ _ H) as [Hcols Hsub].
  unfold well_formed in *. rewrite Hcols.
  exact (Subseq_Forall _ _ _ Hsub Hwf).
Qed.

(** A filter on a column the schema lacks raises. *)
Lemma filter_gt_missing (df : DataFrame) (name : string) (k : Q) :
  ~ In name (columns df) ->
  filter df (gt (col name) (lit k)) = Raise (ColumnNotFoundError name).
Proof.
  intro H. unfold filter. simpl. unfold eval_cmp. simpl. unfold get_column.
  destruct (index_of name (columns df)) eqn:E; [|reflexivity].
  destruct (index_of_Some _ _ _ E). contradiction.
Qed.

(** ** The detectors *)

(** C1.  On every table with a [v_vel] column, [find_high_velocity]
    returns, under the same schema, exactly the rows whose [v_vel] is
    strictly greater than the threshold, in the order of the table; the
    result is empty when no row qualifies. *)
Theorem find_high_velocity_exact (df : DataFrame) (k : Q) :
  In "v_vel" (columns df) ->
  exists out,
    find_high_velocity df k = Ok out /\
    columns out = columns df /\
    rows out =
      List.filter (fun r => aboveb k (cell_at (columns df) "v_vel" r))
        (rows df) /\
    Subseq (rows out) (rows df) /\
    (forall r, In r (rows out) <->
               In r (rows df) /\ above k (cell_at (columns df) "v_vel" r)) /\
    ((forall r, In r (rows df) ->
                ~ above k (cell_at (columns df) "v_vel" r)) ->
     rows out = []).
Proof.
  intro H. unfold find_high_velocity. rewrite (filter_gt df "v_vel" H k).
  eexists. split; [reflexivity|]. simpl.
  split; [reflexivity|]. split; [reflexivity|].
  split; [apply Subseq_filter|]. split.
  - intro r. rewrite filter_In, aboveb_spec. reflexivity.
  - intro Hnone. induction (rows df) as [|r rs IH]; simpl; [reflexivity|].
    destruct (aboveb k (cell_at (columns df) "v_vel" r)) eqn:E.
    + apply aboveb_spec in E. exfalso.
      exact (Hnone r (or_introl eq_refl) E).
    + apply IH. intros r' Hr'. apply Hnone. right. exact Hr'.
Qed.

Lemma find_high_velocity_exact_witness :
  exists out,
    find_high_velocity flight 15 = Ok out /\
    columns out = columns flight /\
    rows out =
      List.filter (fun r => aboveb 15 (cell_at (columns flight) "v_vel" r))
        (rows flight) /\
    Subseq (rows out) (rows flight) /\
    (forall r, In r (rows out) <->
               In r (rows flight) /\
               above 15 (cell_at (columns flight) "v_vel" r)) /\
    ((forall r, In r (rows flight) ->
                ~ above 15 (cell_at (columns flight) "v_vel" r)) ->
     rows out = []).
Proof.
  apply (find_high_velocity_exact flight 15). simpl. tauto.
Defined.

(** Raising the bar keeps fewer cells above it. *)
Lemma above_mono (k k' : Q) (c : cell) : k <= k' -> above k' c -> above k c.
Proof.
  intros Hk [x [Hx Hlt]]. exists x. split; [exact Hx|].
  exact (Qle_lt_trans _ _ _ Hk Hlt).
Qed.

(** A wider interval holds more cells. *)
Lemma within_mono (lo lo' hi hi' : Q) (c : cell) :
  lo' <= lo -> hi <= hi' -> within lo hi c -> within lo' hi' c.
Proof.
  intros Hlo Hhi [x [Hx [H1 H2]]]. exists x. split; [exact Hx|]. split.
  - exact (Qle_trans _ _ _ Hlo H1).
  - exact (Qle_trans _ _ _ H2 Hhi).
Qed.

(** On every table with a [hover_mag] column, [find_force_spikes]
    returns exactly the rows whose [hover_mag] is strictly greater than
    the weight times the ratio. *)
Lemma find_force_spikes_exact (df : DataFrame) (w r : Q) :
  In "hover_mag" (columns df) ->
  find_force_spikes df w r =
  Ok (mkDataFrame (columns df)
        (List.filter
           (fun x => aboveb (w * r) (cell_at (columns df) "hover_mag" x))
           (rows df))).
Proof. intro H. unfold find_force_spikes. apply filter_gt, H. Qed.

(** C2, as the code has it.  [find_force_spikes] returns exactly the rows
    whose [hover_mag] is strictly greater than the weight times the
    ratio; and for a weight that is not negative, a larger ratio selects
    a subsequence of what the smaller ratio selects, hence at most as
    many rows. *)
Theorem find_force_spikes_narrowing (df : DataFrame) (w r r' : Q) :
  In "hover_mag" (columns df) ->
  0 <= w ->
  r <= r' ->
  exists out out',
    find_force_spikes df w r = Ok out /\
    find_force_spikes df w r' = Ok out' /\
    rows out =
      List.filter
        (fun x => aboveb (w * r) (cell_at (columns df) "hover_mag" x))
        (rows df) /\
    (forall x, In x (rows out) <->
               In x (rows df) /\
               above (w * r) (cell_at (columns df) "hover_mag" x)) /\
    Subseq (rows out') (rows out) /\
    (List.length (rows out') <= List.length (rows out))%nat.
Proof.
  intros H Hw Hr. rewrite !find_force_spikes_exact by exact H.
  eexists. eexists. split; [reflexivity|]. split; [reflexivity|]. simpl.
  assert (Hsub :
    Subseq
      (List.filter
         (fun x => aboveb (w * r') (cell_at (columns df) "hover_mag" x))
         (rows df))
      (List.filter
         (fun x => aboveb (w * r) (cell_at (columns df) "hover_mag" x))
         (rows df))).
  { apply Subseq_filter_impl. intros x _ Hx.
    apply aboveb_spec. apply aboveb_spec in Hx.
    apply (above_mono (w * r) (w * r')); [|exact Hx].
    rewrite (Qmult_comm w r), (Qmult_comm w r').
    apply Qmult_le_compat_r; assumption. }
  split; [reflexivity|]. split.
  - intro x. rewrite filter_In, aboveb_spec. reflexivity.
  - split; [exact Hsub | apply Subseq_length, Hsub].
Qed.

Lemma find_force_spikes_narrowing_witness :
  exists out out',
    find_force_spikes flight 11772 3 = Ok out /\
    find_force_spikes flight 11772 5 = Ok out' /\
    rows out =
      List.filter
        (fun x => aboveb (11772 * 3) (cell_at (columns flight) "hover_mag" x))
        (rows flight) /\
    (forall x, In x (rows out) <->
               In x (rows flight) /\
               above (11772 * 3) (cell_at (columns flight) "hover_mag" x)) /\
    Subseq (rows out') (rows out) /\
    (List.length (rows out') <= List.length (rows out))%nat.
Proof.
  apply (find_force_spikes_narrowing flight 11772 3 5).
  - simpl. tauto.
  - discriminate.
  - discriminate.
Defined.

(** C2, as stated, fails for a negative weight: the bar [w * r] then
    falls as the ratio grows.  With weight -1, the idle sample (hover
    force 0) is not above [-1 * 0 = 0] but is above [-1 * 1 = -1], so the
    larger ratio returns more rows. *)
Lemma find_force_spikes_negative_weight :
  In "hover_mag" (columns idle) /\
  0 <= 1 /\
  find_force_spikes idle (-1) 0 = Ok (mkDataFrame ["t"; "hover_mag"] []) /\
  find_force_spikes idle (-1) 1 =
    Ok (mkDataFrame ["t"; "hover_mag"] [[Some 0; Some 0]]) /\
  ~ (forall (df : DataFrame) (w r r' : Q) (out out' : DataFrame),
       In "hover_mag" (columns df) ->
       r <= r' ->
       find_force_spikes df w r = Ok out ->
       find_force_spikes df w r' = Ok out' ->
       (List.length (rows out') <= List.length (rows out))%nat).
Proof.
  split; [simpl; tauto|]. split; [discriminate|].
  split; [reflexivity|]. split; [reflexivity|].
  intro H.
  assert (Hbad := H idle (-1) 0 1 _ _ (or_intror (or_introl eq_refl))
                    ltac:(discriminate) eq_refl eq_refl).
  simpl in Hbad. lia.
Qed.

(** C3.  On every table with a [t] column, every row returned by
    [get_context] has its [t] in the closed interval from [c - w] to
    [c + w]; the returned rows are exactly those; and a window at least
    as wide returns a supersequence, so no row is lost by widening.
    Nothing here needs the window to be non-negative. *)
Theorem get_context_window (df : DataFrame) (c w w' : Q) :
  In "t" (columns df) ->
  w <= w' ->
  exists out out',
    get_context df c w = Ok out /\
    get_context df c w' = Ok out' /\
    columns out = columns df /\
    (forall r, In r (rows out) ->
       exists tv, cell_at (columns df) "t" r = Some tv /\
                  c - w <= tv /\ tv <= c + w) /\
    (forall r, In r (rows out) <->
       In r (rows df) /\ within (c - w) (c + w) (cell_at (columns df) "t" r)) /\
    Subseq (rows out) (rows out') /\
    (forall r, In r (rows out) -> In r (rows out')).
Proof.
  intros H Hw. unfold get_context. rewrite !filter_between by exact H.
  eexists. eexists. split; [reflexivity|]. split; [reflexivity|]. simpl.
  assert (Hsub :
    Subseq
      (List.filter
         (fun r => withinb (c - w) (c + w) (cell_at (columns df) "t" r))
         (rows df))
      (List.filter
         (fun r => withinb (c - w') (c + w') (cell_at (columns df) "t" r))
         (rows df))).
  { apply Subseq_filter_impl. intros r _ Hr.
    apply withinb_spec. apply withinb_spec in Hr.
    apply (within_mono (c - w) (c - w') (c + w) (c + w')); [| |exact Hr].
    - unfold Qminus. apply Qplus_le_r, Qopp_le_compat, Hw.
    - apply Qplus_le_r, Hw. }
  split; [reflexivity|]. split; [|split; [|split]].
  - intros r Hr. apply filter_In in Hr. destruct Hr as [_ Hr].
    apply withinb_spec in Hr. exact Hr.
  - intro r. rewrite filter_In, withinb_spec. reflexivity.
  - exact Hsub.
  - apply Subseq_In, Hsub.
Qed.

Lemma get_context_window_witness :
  exists out out',
    get_context flight 0.2 0.1 = Ok out /\
    get_context flight 0.2 0.5 = Ok out' /\
    columns out = columns flight /\
    (forall r, In r (rows out) ->
       exists tv, cell_at (columns flight) "t" r = Some tv /\
                  0.2 - 0.1 <= tv /\ tv <= 0.2 + 0.1) /\
    (forall r, In r (rows out) <->
       In r (rows flight) /\
       within (0.2 - 0.1) (0.2 + 0.1) (cell_at (columns flight) "t" r)) /\
    Subseq (rows out) (rows out') /\
    (forall r, In r (rows out) -> In r (rows out')).
Proof.
  apply (get_context_window flight 0.2 0.1 0.5).
  - simpl. tauto.
  - discriminate.
Defined.

(** ** Adding a column *)

Lemma index_of_nth_error (name : string) (cs : list string) (i : nat) :
  index_of name cs = Some i -> nth_error cs i = Some name.
Proof.
  revert i. induction cs as [|c cs IH]; simpl; [discriminate|]. intro i.
  destruct (String.eqb c name) eqn:E.
  - intro H. injection H as <-. apply String.eqb_eq in E. subst. reflexivity.
  - destruct (index_of name cs) as [j|]; simpl; [|discriminate].
    intro H. injection H as <-. simpl. apply IH. reflexivity.
Qed.

Lemma index_of_app_l (name : string) (cs more : list string) (i : nat) :
  index_of name cs = Some i -> index_of name (cs ++ more) = Some i.
Proof.
  revert i. induction cs as [|c cs IH]; simpl; [discriminate|]. intro i.
  destruct (String.eqb c name); [trivial|].
  destruct (index_of name cs) as [j|]; simpl; [|discriminate].
  intro H. injection H as <-. rewrite (IH j eq_refl). reflexivity.
Qed.

Lemma index_of_app_new (name n : string) (cs : list string) :
  index_of name cs = None ->
  index_of name (cs ++ [n]) =
  if String.eqb n name then Some (List.length cs) else None.
Proof.
  induction cs as [|c cs IH]; simpl.
  - intros _. destruct (String.eqb n name); reflexivity.
  - destruct (String.eqb c name); [discriminate|].
    destruct (index_of name cs) as [j|]; simpl; [discriminate|].
    intros _. rewrite (IH eq_refl).
    destruct (String.eqb n name); reflexivity.
Qed.

Lemma In_put_name (cs : list string) (name : string) :
  In name (put_name cs name).
Proof.
  unfold put_name. destruct (index_of name cs) eqn:E.
  - apply (index_of_Some _ _ _ E).
  - apply in_or_app. right. left. reflexivity.
Qed.

Lemma nth_set_nth_same (j : nat) (d : cell) (r : row) :
  (j < List.length r)%nat -> cell_nth j (set_nth j d r) = d.
Proof.
  unfold cell_nth. revert r.
  induction j as [|j IH]; intros [|x r] H; simpl in *; try lia.
  - reflexivity.
  - apply IH. lia.
Qed.

Lemma nth_set_nth_other (i j : nat) (d : cell) (r : row) :
  i <> j -> cell_nth i (set_nth j d r) = cell_nth i r.
Proof.
  unfold cell_nth. revert i r.
  induction j as [|j IH]; intros [|i] [|x r] H; simpl; try reflexivity;
    try congruence.
  apply IH. congruence.
Qed.

(** The new cell is read back under the new name. *)
Lemma cell_at_put_same (cs : list string) (name : string) (r : row) (d : cell) :
  List.length r = List.length cs ->
  cell_at (put_name cs name) name (put_cell cs name r d) = d.
Proof.
  intro Hlen. unfold cell_at, put_name, put_cell.
  destruct (index_of name cs) as [j|] eqn:E.
  - rewrite E. apply nth_set_nth_same.
    destruct (index_of_Some _ _ _ E). lia.
  - rewrite (index_of_app_new _ _ _ E), String.eqb_refl.
    unfold cell_nth. rewrite <- Hlen. apply nth_middle.
Qed.

(** Every other cell is left as it was. *)
Lemma cell_at_put_other (cs : list string) (name other : string) (r : row)
  (d : cell) :
  other <> name ->
  List.length r = List.length cs ->
  cell_at (put_name cs name) other (put_cell cs name r d) = cell_at cs other r.
Proof.
  intros Hne Hlen. unfold cell_at, put_name, put_cell.
  destruct (index_of name cs) as [j|] eqn:E.
  - destruct (index_of other cs) as [i|] eqn:Ei; [|reflexivity].
    apply nth_set_nth_other. intros ->.
    apply index_of_nth_error in E. apply index_of_nth_error in Ei. congruence.
  - destruct (index_of other cs) as [i|] eqn:Ei.
    + rewrite (index_of_app_l _ _ _ _ Ei). unfold cell_nth.
      apply app_nth1. destruct (index_of_Some _ _ _ Ei). lia.
    + rewrite (index_of_app_new _ _ _ Ei).
      destruct (String.eqb name other) eqn:Eq; [|reflexivity].
      apply String.eqb_eq in Eq. congruence.
Qed.

Lemma zip_with_combine {A B C : Type} (f : A -> B -> C) (xs : list A)
  (ys : list B) :
  zip_with f xs ys = map (fun p => f (fst p) (snd p)) (combine xs ys).
Proof.
  revert ys. induction xs as [|x xs IH]; intros [|y ys]; simpl;
    try reflexivity.
  rewrite IH. reflexivity.
Qed.

Lemma filter_map_swap {A B : Type} (p : B -> bool) (f : A -> B) (l : list A) :
  List.filter p (map f l) = map f (List.filter (fun x => p (f x)) l).
Proof.
  induction l as [|x l IH]; simpl; [reflexivity|].
  destruct (p (f x)); simpl; rewrite IH; reflexivity.
Qed.

Lemma map_fst_combine_Subseq {A B : Type} (xs : list A) (ys : list B) :
  Subseq (map fst (combine xs ys)) xs.
Proof.
  revert ys. induction xs as [|x xs IH]; intros ys; simpl.
  - apply Subseq_nil.
  - destruct ys as [|y ys]; simpl.
    + apply Subseq_skip. specialize (IH []). destruct xs; exact IH.
    + apply Subseq_cons, IH.
Qed.

Lemma Subseq_trans {A : Type} (l1 l2 l3 : list A) :
  Subseq l1 l2 -> Subseq l2 l3 -> Subseq l1 l3.
Proof.
  intros H12 H23. revert l1 H12.
  induction H23 as [|x l2 l3 _ IH|x l2 l3 _ IH]; intros l1 H12.
  - exact H12.
  - apply Subseq_skip, IH, H12.
  - inversion H12; subst.
    + apply Subseq_skip, IH. assumption.
    + apply Subseq_cons, IH. assumption.
Qed.

Lemma find_launches_rows (df : DataFrame) (k : Q) :
  well_formed df ->
  In "v_vel" (columns df) ->
  find_launches df k =
  Ok (mkDataFrame (put_name (columns df) "v_vel_delta")
        (map (fun rd => with_delta (columns df) (fst rd) (snd rd))
           (launch_rows df k))).
Proof.
  intros Hwf Hv. destruct (index_of_In _ _ Hv) as [i Hi].
  unfold find_launches, with_columns, launch_rows, v_vel_deltas, cell_at.
  simpl. unfold get_column. rewrite Hi. simpl.
  rewrite filter_gt by (simpl; apply In_put_name). simpl.
  f_equal. f_equal.
  rewrite zip_with_combine, filter_map_swap. f_equal.
  apply filter_ext_in. intros [r d] Hin. simpl.
  rewrite cell_at_put_same; [reflexivity|].
  apply in_combine_l in Hin. unfold well_formed in Hwf.
  rewrite Forall_forall in Hwf. apply Hwf, Hin.
Qed.

Lemma set_nth_length (i : nat) (c : cell) (r : row) :
  List.length (set_nth i c r) = List.length r.
Proof.
  revert r. induction i as [|i IH]; intros [|x r]; simpl; try reflexivity.
  rewrite IH. reflexivity.
Qed.

(** A row with its cell put is as wide as the schema with the name put. *)
Lemma put_cell_length (cs : list string) (name : string) (r : row) (d : cell) :
  List.length r = List.length cs ->
  List.length (put_cell cs name r d) = List.length (put_name cs name).
Proof.
  intro H. unfold put_cell, put_name. destruct (index_of name cs).
  - rewrite set_nth_length. exact H.
  - rewrite !length_app, H. reflexivity.
Qed.

(** [find_launches] returns a well-formed table. *)
Lemma find_launches_well_formed (df out : DataFrame) (k : Q) :
  well_formed df ->
  In "v_vel" (columns df) ->
  find_launches df k = Ok out ->
  well_formed out.
Proof.
  intros Hwf Hv H. rewrite find_launches_rows in H by assumption.
  injection H as <-. unfold well_formed in *. simpl.
  rewrite Forall_forall in *. intros r' Hr'.
  apply in_map_iff in Hr'. destruct Hr' as [[r d] [<- Hin]]. simpl.
  apply put_cell_length, Hwf.
  unfold launch_rows in Hin. apply filter_In in Hin. destruct Hin as [Hin _].
  exact (in_combine_l _ _ _ _ Hin).
Qed.

Lemma launch_rows_Subseq (df : DataFrame) (k : Q) :
  Subseq (map fst (launch_rows df k)) (rows df).
Proof.
  apply (Subseq_trans _ (map fst (combine (rows df) (v_vel_deltas df)))).
  - apply Subseq_map, Subseq_filter.
  - apply map_fst_combine_Subseq.
Qed.

(** Without a [v_vel_delta] column in the schema, the delta is appended
    as a new last cell. *)
Lemma with_delta_fresh (cs : list string) (r : row) (d : cell) :
  ~ In "v_vel_delta" cs ->
  put_name cs "v_vel_delta" = (cs ++ ["v_vel_delta"])%list /\
  with_delta cs r d = (r ++ [d])%list.
Proof.
  intro H. unfold put_name, with_delta, put_cell.
  destruct (index_of "v_vel_delta" cs) eqn:E; [|split; reflexivity].
  destruct (index_of_Some _ _ _ E). contradiction.
Qed.

(** C5, as the code has it.  The detectors are functions of their
    arguments that build a new table and leave the given one as it is.
    On a well-formed table with the columns they read,
    [find_high_velocity], [find_force_spikes] and [get_context] return a
    subsequence of the rows under the same schema; [find_launches]
    returns a subsequence of the rows too, but each row carries its
    velocity delta in a [v_vel_delta] column, which the schema of the
    result gains when the table did not have it. *)
Theorem detectors_return_subtables (df : DataFrame) (k w r c win : Q) :
  well_formed df ->
  In "v_vel" (columns df) ->
  In "hover_mag" (columns df) ->
  In "t" (columns df) ->
  (exists out, find_high_velocity df k = Ok out /\
               columns out = columns df /\ Subseq (rows out) (rows df)) /\
  (exists out, find_force_spikes df w r = Ok out /\
               columns out = columns df /\ Subseq (rows out) (rows df)) /\
  (exists out, get_context df c win = Ok out /\
               columns out = columns df /\ Subseq (rows out) (rows df)) /\
  (exists out sel,
     find_launches df k = Ok out /\
     columns out = put_name (columns df) "v_vel_delta" /\
     rows out = map (fun rd => with_delta (columns df) (fst rd) (snd rd)) sel /\
     Subseq (map fst sel) (rows df) /\
     (forall rd, In rd sel -> above k (snd rd)) /\
     (~ In "v_vel_delta" (columns df) ->
      columns out = (columns df ++ ["v_vel_delta"])%list /\
      Subseq (map (@removelast cell) (rows out)) (rows df))).
Proof.
  intros Hwf Hv Hh Ht. split; [|split; [|split]].
  - unfold find_high_velocity. rewrite filter_gt by exact Hv.
    eexists. split; [reflexivity|]. split; [reflexivity|].
    apply Subseq_filter.
  - rewrite find_force_spikes_exact by exact Hh.
    eexists. split; [reflexivity|]. split; [reflexivity|].
    apply Subseq_filter.
  - unfold get_context. rewrite filter_between by exact Ht.
    eexists. split; [reflexivity|]. split; [reflexivity|].
    apply Subseq_filter.
  - rewrite find_launches_rows by assumption.
    eexists. exists (launch_rows df k).
    split; [reflexivity|]. split; [reflexivity|]. split; [reflexivity|].
    split; [apply launch_rows_Subseq|]. split.
    + intros rd Hrd. unfold launch_rows in Hrd. apply filter_In in Hrd.
      apply aboveb_spec, Hrd.
    + intro Hfresh. simpl. split.
      * apply (with_delta_fresh _ [] None Hfresh).
      * rewrite map_map.
        rewrite (map_ext _ fst); [apply launch_rows_Subseq|].
        intros [r0 d]. simpl.
        destruct (with_delta_fresh (columns df) r0 d Hfresh) as [_ ->].
        apply removelast_last.
Qed.

Lemma detectors_return_subtables_witness :
  (exists out, find_high_velocity flight 10 = Ok out /\
               columns out = columns flight /\
               Subseq (rows out) (rows flight)) /\
  (exists out, find_force_spikes flight 11772 3 = Ok out /\
               columns out = columns flight /\
               Subseq (rows out) (rows flight)) /\
  (exists out, get_context flight 0.2 0.1 = Ok out /\
               columns out = columns flight /\
               Subseq (rows out) (rows flight)) /\
  (exists out sel,
     find_launches flight 10 = Ok out /\
     columns out = put_name (columns flight) "v_vel_delta" /\
     rows out =
       map (fun rd => with_delta (columns flight) (fst rd) (snd rd)) sel /\
     Subseq (map fst sel) (rows flight) /\
     (forall rd, In rd sel -> above 10 (snd rd)) /\
     (~ In "v_vel_delta" (columns flight) ->
      columns out = (columns flight ++ ["v_vel_delta"])%list /\
      Subseq (map (@removelast cell) (rows out)) (rows flight))).
Proof.
  apply (detectors_return_subtables flight 10 11772 3 0.2 0.1).
  - unfold well_formed. simpl. repeat constructor.
  - simpl. tauto.
  - simpl. tauto.
  - simpl. tauto.
Defined.

(** C5, as stated, fails for [find_launches]: on the table of two rows
    with velocities 0 and 11 it returns a table with three columns, whose
    only row is not a row of the table. *)
Lemma find_launches_adds_column :
  well_formed two_rows /\
  In "v_vel" (columns two_rows) /\
  find_launches two_rows 10 =
    Ok (mkDataFrame ["t"; "v_vel"; "v_vel_delta"]
          [[Some 0.1; Some 11; Some 11]]) /\
  ~ (forall (df : DataFrame) (k : Q) (out : DataFrame),
       well_formed df ->
       In "v_vel" (columns df) ->
       find_launches df k = Ok out ->
       columns out = columns df /\ Subseq (rows out) (rows df)).
Proof.
  split; [unfold well_formed; simpl; repeat constructor|].
  split; [simpl; tauto|]. split; [reflexivity|].
  intro H.
  destruct (H two_rows 10 _ ltac:(unfold well_formed; simpl; repeat constructor)
              ltac:(simpl; tauto) eq_refl) as [Hcols _].
  discriminate Hcols.
Qed.

(** C8.  On a well-formed table of exactly two rows whose [v_vel] values
    are 0 and 11, [find_launches] with threshold 10 returns one row: the
    second row carrying its delta, which is 11.  The delta of the first
    row is null and the first row is not returned.  Every cell of the
    returned row other than the delta is the cell of the second row. *)
Theorem find_launches_two_rows (cs : list string) (r1 r2 : row) (a b : Q) :
  well_formed (mkDataFrame cs [r1; r2]) ->
  cell_at cs "v_vel" r1 = Some a ->
  a == 0 ->
  cell_at cs "v_vel" r2 = Some b ->
  b == 11 ->
  exists d,
    d == 11 /\
    v_vel_deltas (mkDataFrame cs [r1; r2]) = [None; Some d] /\
    find_launches (mkDataFrame cs [r1; r2]) 10 =
      Ok (mkDataFrame (put_name cs "v_vel_delta")
            [with_delta cs r2 (Some d)]) /\
    cell_at (put_name cs "v_vel_delta") "v_vel_delta"
      (with_delta cs r2 (Some d)) = Some d /\
    (forall name, name <> "v_vel_delta" ->
       cell_at (put_name cs "v_vel_delta") name (with_delta cs r2 (Some d)) =
       cell_at cs name r2).
Proof.
  intros Hwf Ha Ha0 Hb Hb11.
  assert (Hlen2 : List.length r2 = List.length cs).
  { unfold well_formed in Hwf. simpl in Hwf.
    inversion Hwf as [|? ? _ Hrest]; subst.
    inversion Hrest; subst. assumption. }
  assert (Hv : In "v_vel" cs).
  { unfold cell_at in Ha. destruct (index_of "v_vel" cs) eqn:E; [|discriminate].
    apply (index_of_Some _ _ _ E). }
  assert (Hd : b - a == 11) by (rewrite Ha0, Hb11; reflexivity).
  exists (b - a). split; [exact Hd|].
  assert (Hdeltas :
    v_vel_deltas (mkDataFrame cs [r1; r2]) = [None; Some (b - a)]).
  { unfold v_vel_deltas. simpl. rewrite Ha, Hb. reflexivity. }
  split; [exact Hdeltas|]. split; [|split].
  - rewrite find_launches_rows by assumption.
    unfold launch_rows. rewrite Hdeltas. simpl.
    assert (Hgt : Qlt_bool 10 (b - a) = true).
    { apply Qlt_bool_iff. rewrite Hd. reflexivity. }
    rewrite Hgt. reflexivity.
  - apply cell_at_put_same, Hlen2.
  - intros name Hne. apply cell_at_put_other; assumption.
Qed.

Lemma find_launches_two_rows_witness :
  exists d,
    d == 11 /\
    v_vel_deltas two_rows = [None; Some d] /\
    find_launches two_rows 10 =
      Ok (mkDataFrame (put_name ["t"; "v_vel"] "v_vel_delta")
            [with_delta ["t"; "v_vel"] [Some 0.1; Some 11] (Some d)]) /\
    cell_at (put_name ["t"; "v_vel"] "v_vel_delta") "v_vel_delta"
      (with_delta ["t"; "v_vel"] [Some 0.1; Some 11] (Some d)) = Some d /\
    (forall name, name <> "v_vel_delta" ->
       cell_at (put_name ["t"; "v_vel"] "v_vel_delta") name
         (with_delta ["t"; "v_vel"] [Some 0.1; Some 11] (Some d)) =
       cell_at ["t"; "v_vel"] name [Some 0.1; Some 11]).
Proof.
  apply (find_launches_two_rows ["t"; "v_vel"] [Some 0; Some 0]
           [Some 0.1; Some 11] 0 11).
  - unfold well_formed. simpl. repeat constructor.
  - reflexivity.
  - reflexivity.
  - reflexivity.
  - reflexivity.
Defined.

(** ** The entry point *)

(** C7.  When the input path does not exist, the run prints one line,
    the error message, which mentions the path, and exits with status 1.
    Nothing else is printed and the file is not read. *)
Theorem main_missing_file (fs : filesystem) (args : Namespace) :
  fs (file args) = None ->
  main fs args =
    ([Print (file_not_found_line (file args))], Raise (SystemExit 1)) /\
  In (PathText (file args)) (file_not_found_line (file args)) /\
  printed (trace (main fs args)) = [file_not_found_line (file args)] /\
  exit_status (outcome (main fs args)) <> 0%Z /\
  (forall path, ~ In (ReadCsv path) (trace (main fs args))).
Proof.
  intro H.
  assert (E : main fs args =
              ([Print (file_not_found_line (file args))],
               Raise (SystemExit 1))).
  { unfold main, path_exists. rewrite H. reflexivity. }
  rewrite E. split; [reflexivity|]. split; [simpl; tauto|].
  split; [reflexivity|]. split; [discriminate|].
  intros path [Hin|[]]. discriminate Hin.
Qed.

Lemma main_missing_file_witness :
  main disk (mkNamespace "missing.csv" true false None 0.5) =
    ([Print (file_not_found_line "missing.csv")], Raise (SystemExit 1)) /\
  In (PathText "missing.csv") (file_not_found_line "missing.csv") /\
  printed (trace (main disk (mkNamespace "missing.csv" true false None 0.5))) =
    [file_not_found_line "missing.csv"] /\
  exit_status
    (outcome (main disk (mkNamespace "missing.csv" true false None 0.5)))
    <> 0%Z /\
  (forall path,
     ~ In (ReadCsv path)
         (trace (main disk (mkNamespace "missing.csv" true false None 0.5)))).
Proof.
  apply (main_missing_file disk (mkNamespace "missing.csv" true false None 0.5)).
  reflexivity.
Defined.

(** With no action requested, the summary and the context report run. *)
Lemma main_default (fs : filesystem) (path : string) (w : Q) (df : DataFrame) :
  fs path = Some (Ok df) ->
  main fs (mkNamespace path false false None w) =
  (_ <- load_telemetry fs path ;;
   print_summary df ;;
   print_problem_context df ;;
   ret tt).
Proof.
  intro H. unfold main, path_exists, load_telemetry. simpl. rewrite H.
  reflexivity.
Qed.

(** With a non-zero time, and neither [--summary] nor [--context], only
    the around-time report runs. *)
Lemma main_around_nonzero (fs : filesystem) (path : string) (time w : Q)
  (df : DataFrame) :
  fs path = Some (Ok df) ->
  ~ time == 0 ->
  main fs (mkNamespace path false false (Some time) w) =
  (_ <- load_telemetry fs path ;;
   ret tt ;;
   ret tt ;;
   print_around_time df time w).
Proof.
  intros H Hne. unfold main, path_exists, load_telemetry, any_action. simpl.
  rewrite H.
  destruct (Qeq_bool time 0) eqn:E.
  - apply Qeq_bool_iff in E. contradiction.
  - reflexivity.
Qed.

(** With the time 0, the truth value of [args.around] is false, the
    defaults are switched on and all three reports run. *)
Lemma main_around_zero (fs : filesystem) (path : string) (time w : Q)
  (df : DataFrame) :
  fs path = Some (Ok df) ->
  time == 0 ->
  main fs (mkNamespace path false false (Some time) w) =
  (_ <- load_telemetry fs path ;;
   print_summary df ;;
   print_problem_context df ;;
   print_around_time df time w).
Proof.
  intros H Hz. unfold main, path_exists, load_telemetry, any_action. simpl.
  rewrite H. apply Qeq_bool_iff in Hz. rewrite Hz. reflexivity.
Qed.

(** C6, at the failing input: [--around 0.0] alone, on the flight.  The
    run is the summary, then the context report, then the around-time
    report; it prints the summary banner, and it is not the run of the
    around-time report alone. *)
Theorem main_around_zero_runs_all_reports :
  main disk (mkNamespace "telemetry.csv" false false (Some 0.0) 0.5) =
    (_ <- load_telemetry disk "telemetry.csv" ;;
     print_summary flight ;;
     print_problem_context flight ;;
     print_around_time flight 0.0 0.5) /\
  In (Print [Str "TELEMETRY SUMMARY"])
     (trace (main disk (mkNamespace "telemetry.csv" false false (Some 0.0) 0.5)))
  /\
  main disk (mkNamespace "telemetry.csv" false false (Some 0.0) 0.5) <>
    (_ <- load_telemetry disk "telemetry.csv" ;;
     print_around_time flight 0.0 0.5).
Proof.
  split; [|split].
  - apply (main_around_zero disk "telemetry.csv" 0.0 0.5 flight);
      reflexivity.
  - vm_compute. tauto.
  - vm_compute. discriminate.
Qed.

(** ** Selecting columns *)

(** Selecting distinct columns of the schema succeeds and projects every
    row onto them. *)
Lemma select_indices_ok (cs names : list string) :
  NoDup names ->
  (forall n, In n names -> In n cs) ->
  exists idxs,
    select_indices cs names = Ok idxs /\
    forall r, map (fun i => cell_nth i r) idxs =
              map (fun n => cell_at cs n r) names.
Proof.
  induction names as [|n names IH]; intros Hnd Hin; simpl.
  - exists []. split; reflexivity.
  - inversion Hnd as [|? ? Hnot Hnd']; subst.
    destruct (index_of_In n cs (Hin n (or_introl eq_refl))) as [i Hi].
    rewrite Hi.
    destruct (has_column n names) eqn:Edup.
    + apply has_column_In in Edup. contradiction.
    + destruct (IH Hnd' (fun m Hm => Hin m (or_intror Hm)))
        as [idxs [Hsel Hrows]].
      rewrite Hsel. exists (i :: idxs). split; [reflexivity|].
      intro r. simpl. rewrite Hrows. unfold cell_at. rewrite Hi. reflexivity.
Qed.

Lemma filter_NoDup {A : Type} (p : A -> bool) (l : list A) :
  NoDup l -> NoDup (List.filter p l).
Proof.
  induction 1 as [|x l Hx _ IH]; simpl; [constructor|].
  destruct (p x); [|exact IH].
  constructor; [|exact IH]. intro Hin. apply filter_In in Hin. tauto.
Qed.

Lemma select_ok (df : DataFrame) (names : list string) :
  names <> [] ->
  NoDup names ->
  (forall n, In n names -> In n (columns df)) ->
  select df names =
  Ok (mkDataFrame names
        (map (fun r => map (fun n => cell_at (columns df) n r) names)
           (rows df))).
Proof.
  intros Hne Hnd Hin. unfold select.
  destruct (select_indices_ok (columns df) names Hnd Hin)
    as [idxs [Hsel Hrows]].
  destruct names as [|n names]; [contradiction|].
  rewrite Hsel. f_equal. f_equal. apply map_ext, Hrows.
Qed.

(** The preferred columns that the table has can be selected. *)
Lemma select_available (df : DataFrame) (cols : list string) (c : string) :
  NoDup cols ->
  In c cols ->
  In c (columns df) ->
  select df (available_cols cols df) =
  Ok (mkDataFrame (available_cols cols df)
        (map (fun r => map (fun n => cell_at (columns df) n r)
                         (available_cols cols df))
           (rows df))).
Proof.
  intros Hnd Hc Hcol. apply select_ok.
  - intro Hempty.
    assert (Hin : In c (available_cols cols df)).
    { unfold available_cols. apply filter_In. split; [exact Hc|].
      apply has_column_In, Hcol. }
    rewrite Hempty in Hin. destruct Hin.
  - apply filter_NoDup, Hnd.
  - intros n Hn. unfold available_cols in Hn. apply filter_In in Hn.
    apply has_column_In, Hn.
Qed.

Lemma around_cols_NoDup : NoDup around_cols.
Proof.
  unfold around_cols.
  repeat (constructor; [simpl; intuition discriminate|]). constructor.
Qed.

(** ** The around-time report *)

(** The report, once the context is known. *)
Lemma print_around_time_unfold (df : DataFrame) (c w : Q) (ctx : DataFrame) :
  get_context df c w = Ok ctx ->
  print_around_time df c w =
  if (height ctx =? 0)%nat then ([Print (no_data_line c)], Ok tt)
  else
    match select ctx (available_cols around_cols ctx) with
    | Ok shown =>
        ([Print (around_header c w);
          Print [Table (mkConfig 100 "full") shown]], Ok tt)
    | Raise e => ([Print (around_header c w)], Raise e)
    end.
Proof.
  intro H. unfold print_around_time. rewrite H. unfold lift, bind, print.
  destruct (height ctx =? 0)%nat; [reflexivity|].
  destruct (select ctx (available_cols around_cols ctx)); reflexivity.
Qed.

(** C9.  On every table with a [t] column: when the context is empty the
    report prints the no-data line, which mentions the requested time,
    and returns normally; otherwise it prints the heading and then the
    context rows under the preferred columns that the table has, in the
    preferred order, and returns normally. *)
Theorem print_around_time_report (df : DataFrame) (c w : Q) :
  In "t" (columns df) ->
  exists ctx,
    get_context df c w = Ok ctx /\
    In (Float c) (no_data_line c) /\
    (rows ctx = [] ->
     print_around_time df c w = ([Print (no_data_line c)], Ok tt)) /\
    (rows ctx <> [] ->
     exists shown,
       print_around_time df c w =
         ([Print (around_header c w);
           Print [Table (mkConfig 100 "full") shown]], Ok tt) /\
       columns shown =
         List.filter (fun n => has_column n (columns df)) around_cols /\
       (forall n, In n (columns shown) <->
                  In n around_cols /\ In n (columns df)) /\
       rows shown =
         map (fun r => map (fun n => cell_at (columns df) n r) (columns shown))
           (rows ctx)).
Proof.
  intro H.
  assert (Hctx := filter_between df "t" H (c - w) (c + w)).
  fold (get_context df c w) in Hctx.
  remember (mkDataFrame (columns df)
              (List.filter
                 (fun r => withinb (c - w) (c + w)
                             (cell_at (columns df) "t" r))
                 (rows df))) as ctx eqn:Ectx.
  assert (Hcols : columns ctx = columns df) by (subst ctx; reflexivity).
  exists ctx. split; [exact Hctx|]. split; [simpl; tauto|].
  rewrite (print_around_time_unfold df c w ctx Hctx). unfold height.
  split.
  - intro Hempty. rewrite Hempty. reflexivity.
  - intro Hrows. destruct (rows ctx) as [|r0 rs] eqn:E; [contradiction|].
    change (List.length (r0 :: rs) =? 0)%nat with false. cbv iota.
    rewrite (select_available ctx around_cols "t" around_cols_NoDup);
      [|simpl; tauto|rewrite Hcols; exact H].
    eexists. split; [reflexivity|]. cbn [columns rows].
    unfold available_cols. rewrite Hcols, E.
    split; [reflexivity|]. split; [|reflexivity].
    intro n. rewrite filter_In, has_column_In. reflexivity.
Qed.

Lemma print_around_time_report_witness :
  exists ctx,
    get_context flight 0.2 0.1 = Ok ctx /\
    In (Float 0.2) (no_data_line 0.2) /\
    (rows ctx = [] ->
     print_around_time flight 0.2 0.1 = ([Print (no_data_line 0.2)], Ok tt)) /\
    (rows ctx <> [] ->
     exists shown,
       print_around_time flight 0.2 0.1 =
         ([Print (around_header 0.2 0.1);
           Print [Table (mkConfig 100 "full") shown]], Ok tt) /\
       columns shown =
         List.filter (fun n => has_column n (columns flight)) around_cols /\
       (forall n, In n (columns shown) <->
                  In n around_cols /\ In n (columns flight)) /\
       rows shown =
         map (fun r => map (fun n => cell_at (columns flight) n r)
                         (columns shown))
           (rows ctx)).
Proof.
  apply (print_around_time_report flight 0.2 0.1). simpl. tauto.
Defined.

(** ** Running a report *)

Lemma bind_Ok_inv {A B : Type} (m : IO A) (f : A -> IO B) (tr : list event)
  (b : B) :
  bind m f = (tr, Ok b) ->
  exists tr1 a tr2,
    m = (tr1, Ok a) /\ f a = (tr2, Ok b) /\ tr = (tr1 ++ tr2)%list.
Proof.
  unfold bind. destruct m as [tr1 [a|e]]; [|discriminate].
  destruct (f a) as [tr2 r] eqn:E. intro H. injection H as <- ->.
  exists tr1, a, tr2. repeat split; assumption.
Qed.

Lemma lift_Ok_inv {A : Type} (r : result A) (tr : list event) (a : A) :
  lift r = (tr, Ok a) -> r = Ok a /\ tr = [].
Proof. unfold lift. intro H. injection H as <- ->. split; reflexivity. Qed.

Lemma print_inv (l : line) (tr : list event) (r : result unit) :
  print l = (tr, r) -> tr = [Print l] /\ r = Ok tt.
Proof. unfold print. intro H. injection H as <- <-. split; reflexivity. Qed.

Lemma ret_inv {A : Type} (a b : A) (tr : list event) :
  ret a = (tr, Ok b) -> tr = [] /\ a = b.
Proof. unfold ret. intro H. injection H as <- <-. split; reflexivity. Qed.

Lemma fmt_Ok_inv (digits : nat) (c : cell) (f : frag) :
  fmt digits c = Ok f -> exists x, c = Some x /\ f = Fixed digits x.
Proof.
  destruct c as [x|]; simpl; [|discriminate].
  intro H. injection H as <-. exists x. split; reflexivity.
Qed.

Lemma py_num_Ok_inv (c : cell) (x : Q) : py_num c = Ok x -> c = Some x.
Proof. destruct c; simpl; [|discriminate]. intro H. congruence. Qed.

(** A non-empty table has a non-zero length. *)
Lemma Qlen_nonzero (df : DataFrame) :
  rows df <> [] -> Qeq_bool (Qlen df) 0 = false /\ 0 < Qlen df.
Proof.
  intro H. unfold Qlen, height. destruct (rows df) as [|r rs]; [contradiction|].
  assert (Hpos : 0 < inject_Z (Z.of_nat (List.length (r :: rs)))).
  { unfold Qlt, inject_Z. simpl. lia. }
  split; [|exact Hpos].
  destruct (Qeq_bool _ 0) eqn:E; [|reflexivity].
  apply Qeq_bool_iff in E. rewrite E in Hpos. discriminate Hpos.
Qed.

(** ** Counting by altitude *)

Lemma filter_two_le {A : Type} (p q : A -> bool) (l : list A) :
  (forall x, p x = true -> q x = false) ->
  (List.length (List.filter p l) + List.length (List.filter q l)
   <= List.length l)%nat.
Proof.
  intro Hpq. induction l as [|x l IH]; simpl; [lia|].
  destruct (p x) eqn:Ep.
  - rewrite (Hpq x Ep). simpl. lia.
  - destruct (q x); simpl; lia.
Qed.

(** Two disjoint filters that both miss an element do not cover the
    list. *)
Lemma filter_two_lt {A : Type} (p q : A -> bool) (l : list A) :
  (forall x, p x = true -> q x = false) ->
  (exists x, In x l /\ p x = false /\ q x = false) ->
  (List.length (List.filter p l) + List.length (List.filter q l)
   < List.length l)%nat.
Proof.
  intros Hpq [x [Hin [Hp Hq]]]. induction l as [|y l IH]; [destruct Hin|].
  simpl. destruct Hin as [->|Hin].
  - rewrite Hp, Hq. pose proof (filter_two_le p q l Hpq). lia.
  - specialize (IH Hin). destruct (p y) eqn:Ep.
    + rewrite (Hpq y Ep). simpl. lia.
    + destruct (q y); simpl; lia.
Qed.

Lemma above_not_below (k : Q) (c : cell) : aboveb k c = true -> belowb k c = false.
Proof.
  destruct c as [x|]; simpl; [|reflexivity]. intro H.
  apply Qlt_bool_iff in H. destruct (Qlt_bool x k) eqn:E; [|reflexivity].
  apply Qlt_bool_iff in E. exfalso.
  exact (Qlt_irrefl _ (Qlt_trans _ _ _ H E)).
Qed.

Lemma zero_neither (c : cell) :
  is_zero c -> aboveb 0 c = false /\ belowb 0 c = false.
Proof.
  intros [x [-> Hx]]. simpl. split.
  - destruct (Qlt_bool 0 x) eqn:E; [|reflexivity].
    apply Qlt_bool_iff in E. rewrite Hx in E. discriminate E.
  - destruct (Qlt_bool x 0) eqn:E; [|reflexivity].
    apply Qlt_bool_iff in E. rewrite Hx in E. discriminate E.
Qed.

(** A series with a value has a minimum, a maximum and a mean. *)
Lemma aggregates_defined (s : Series) :
  non_null s <> [] ->
  exists lo hi mean,
    series_min s = Some lo /\ series_max s = Some hi /\
    series_mean s = Some mean.
Proof.
  unfold series_min, series_max, series_mean, fold1.
  destruct (non_null s) as [|x xs]; [contradiction|]. intros _.
  eexists. eexists. eexists. repeat split.
Qed.

Lemma non_null_above (i : nat) (k : Q) (rs : list row) :
  rs <> [] ->
  (forall r, In r rs -> aboveb k (cell_nth i r) = true) ->
  non_null (map (cell_nth i) rs) <> [].
Proof.
  destruct rs as [|r rs]; [contradiction|]. intros _ H. simpl.
  specialize (H r (or_introl eq_refl)).
  destruct (cell_nth i r); [discriminate | discriminate H].
Qed.

Lemma Qlen_lt (a b n : DataFrame) :
  (height a + height b < height n)%nat -> Qlen a + Qlen b < Qlen n.
Proof.
  intro H. unfold Qlen. rewrite <- inject_Z_plus, <- Zlt_Qlt. lia.
Qed.

(** The altitude block on a non-empty table, given the two filtered
    tables. *)
Lemma summary_altitude_run (df valid nohit : DataFrame) :
  valid_alt df = Ok valid ->
  no_raycast df = Ok nohit ->
  rows df <> [] ->
  (rows valid <> [] ->
   exists s, get_column valid "altitude" = Ok s /\ non_null s <> []) ->
  exists stats,
    summary_altitude df =
      (Print [NL; Str "--- Altitude ---"] :: stats ++
       [Print (no_raycast_line (height nohit) (Qlen nohit / Qlen df))],
       Ok tt) /\
    (height valid = 0%nat -> stats = []) /\
    ((0 < height valid)%nat -> List.length stats = 3%nat).
Proof.
  intros Hvalid Hnohit Hrows Hcol. unfold summary_altitude.
  rewrite Hvalid, Hnohit. unfold py_div.
  destruct (Qlen_nonzero df Hrows) as [-> _].
  unfold height in *. unfold bind, lift, print, ret. cbv beta iota.
  destruct (rows valid) as [|r0 rs] eqn:E.
  - exists []. split; [reflexivity|]. split; [reflexivity|]. simpl. lia.
  - destruct Hcol as [s [Hs Hnn]]; [discriminate|].
    destruct (aggregates_defined s Hnn) as [lo [hi [mean [Hlo [Hhi Hmean]]]]].
    change (0 <? List.length (r0 :: rs))%nat with true. cbv iota.
    rewrite Hs. cbv beta iota. rewrite Hlo. simpl fmt. cbv beta iota.
    rewrite Hhi. simpl fmt. cbv beta iota. rewrite Hmean.
    eexists. split; [reflexivity|]. split; [discriminate|]. reflexivity.
Qed.

(** C10.  In the altitude block of the summary, the valid-altitude rows
    are those with altitude above 0 and the no-raycast rows those with
    altitude below 0.  A row whose altitude is exactly 0 is in neither;
    a table that holds such a row has fewer valid and no-raycast rows
    together than samples, and their shares add up to less than 100
    percent.  On a non-empty table the block ends with the no-raycast
    line, which reports that count and its share. *)
Theorem altitude_zero_uncounted (df : DataFrame) :
  In "altitude" (columns df) ->
  exists valid nohit,
    valid_alt df = Ok valid /\
    no_raycast df = Ok nohit /\
    (forall r, In r (rows valid) <->
       In r (rows df) /\ above 0 (cell_at (columns df) "altitude" r)) /\
    (forall r, In r (rows nohit) <->
       In r (rows df) /\ below 0 (cell_at (columns df) "altitude" r)) /\
    (forall r, is_zero (cell_at (columns df) "altitude" r) ->
       ~ In r (rows valid) /\ ~ In r (rows nohit)) /\
    (height valid + height nohit <= height df)%nat /\
    ((exists r, In r (rows df) /\
                is_zero (cell_at (columns df) "altitude" r)) ->
     (height valid + height nohit < height df)%nat /\
     Qlen valid / Qlen df * 100 + Qlen nohit / Qlen df * 100 < 100) /\
    (rows df <> [] ->
     exists stats,
       summary_altitude df =
         (Print [NL; Str "--- Altitude ---"] :: stats ++
          [Print (no_raycast_line (height nohit) (Qlen nohit / Qlen df))],
          Ok tt) /\
       (height valid = 0%nat -> stats = []) /\
       ((0 < height valid)%nat -> List.length stats = 3%nat)).
Proof.
  intro H.
  pose proof (filter_gt df "altitude" H 0) as Hvalid.
  pose proof (filter_lt df "altitude" H 0) as Hnohit.
  fold (valid_alt df) in Hvalid. fold (no_raycast df) in Hnohit.
  set (alt := cell_at (columns df) "altitude") in *.
  remember (mkDataFrame (columns df)
              (List.filter (fun r => aboveb 0 (alt r)) (rows df)))
    as valid eqn:Ev.
  remember (mkDataFrame (columns df)
              (List.filter (fun r => belowb 0 (alt r)) (rows df)))
    as nohit eqn:En.
  assert (Hrv : rows valid =
                List.filter (fun r => aboveb 0 (alt r)) (rows df))
    by (subst valid; reflexivity).
  assert (Hrn : rows nohit =
                List.filter (fun r => belowb 0 (alt r)) (rows df))
    by (subst nohit; reflexivity).
  assert (Hdisj : forall r, aboveb 0 (alt r) = true -> belowb 0 (alt r) = false)
    by (intros r; apply above_not_below).
  exists valid, nohit. split; [exact Hvalid|]. split; [exact Hnohit|].
  split; [|split; [|split; [|split; [|split]]]].
  - intro r. rewrite Hrv, filter_In, aboveb_spec. reflexivity.
  - intro r. rewrite Hrn, filter_In, belowb_spec. reflexivity.
  - intros r Hz. destruct (zero_neither _ Hz) as [Ha Hb].
    rewrite Hrv, Hrn, !filter_In. split; intros [_ Hc]; congruence.
  - unfold height. rewrite Hrv, Hrn. apply filter_two_le, Hdisj.
  - intros [r [Hin Hz]]. destruct (zero_neither _ Hz) as [Ha Hb].
    assert (Hlt : (height valid + height nohit < height df)%nat).
    { unfold height. rewrite Hrv, Hrn. apply filter_two_lt; [exact Hdisj|].
      exists r. repeat split; assumption. }
    split; [exact Hlt|].
    assert (Hne : rows df <> []) by (destruct (rows df); [destruct Hin | discriminate]).
    destruct (Qlen_nonzero df Hne) as [_ Hpos].
    pose proof (Qlen_lt valid nohit df Hlt) as Hsum.
    assert (Heq : Qlen valid / Qlen df * 100 + Qlen nohit / Qlen df * 100 ==
                  (Qlen valid + Qlen nohit) * 100 / Qlen df).
    { field. intro Hz0. rewrite Hz0 in Hpos. discriminate Hpos. }
    rewrite Heq. apply Qlt_shift_div_r; [exact Hpos|]. lra.
  - intro Hne. apply (summary_altitude_run df valid nohit Hvalid Hnohit Hne).
    intro Hvne. destruct (index_of_In _ _ H) as [i Hi].
    exists (map (cell_nth i) (rows valid)). split.
    + unfold get_column. subst valid. simpl. rewrite Hi. reflexivity.
    + apply (non_null_above i 0); [exact Hvne|].
      intros r Hr. rewrite Hrv in Hr. apply filter_In in Hr.
      destruct Hr as [_ Hr]. unfold alt, cell_at in Hr. rewrite Hi in Hr.
      exact Hr.
Qed.

Lemma altitude_zero_uncounted_witness :
  exists valid nohit,
    valid_alt flight = Ok valid /\
    no_raycast flight = Ok nohit /\
    (forall r, In r (rows valid) <->
       In r (rows flight) /\
       above 0 (cell_at (columns flight) "altitude" r)) /\
    (forall r, In r (rows nohit) <->
       In r (rows flight) /\
       below 0 (cell_at (columns flight) "altitude" r)) /\
    (forall r, is_zero (cell_at (columns flight) "altitude" r) ->
       ~ In r (rows valid) /\ ~ In r (rows nohit)) /\
    (height valid + height nohit <= height flight)%nat /\
    ((exists r, In r (rows flight) /\
                is_zero (cell_at (columns flight) "altitude" r)) ->
     (height valid + height nohit < height flight)%nat /\
     Qlen valid / Qlen flight * 100 + Qlen nohit / Qlen flight * 100 < 100) /\
    (rows flight <> [] ->
     exists stats,
       summary_altitude flight =
         (Print [NL; Str "--- Altitude ---"] :: stats ++
          [Print (no_raycast_line (height nohit) (Qlen nohit / Qlen flight))],
          Ok tt) /\
       (height valid = 0%nat -> stats = []) /\
       ((0 < height valid)%nat -> List.length stats = 3%nat)).
Proof.
  apply (altitude_zero_uncounted flight). simpl. tauto.
Defined.

(** ** The problem-detection block *)

(** Inversion of a run that ended normally, step by step. *)
Ltac io_inv :=
  repeat match goal with
  | H : bind _ _ = (_, Ok _) |- _ =>
      apply bind_Ok_inv in H;
      let tr1 := fresh "tr" in
      let a := fresh "a" in
      let tr2 := fresh "tr" in
      let H1 := fresh "Hrun" in
      let H3 := fresh "Htr" in
      destruct H as (tr1 & a & tr2 & H1 & H & H3);
      cbv beta in H
  | H : lift _ = (_, Ok _) |- _ =>
      apply lift_Ok_inv in H; destruct H
  | H : print _ = (_, _) |- _ =>
      apply print_inv in H; destruct H
  | H : ret _ = (_, Ok _) |- _ =>
      apply ret_inv in H; destruct H
  | H : fmt _ _ = Ok _ |- _ =>
      apply fmt_Ok_inv in H;
      let x := fresh "x" in destruct H as (x & ? & ?)
  | H : (if ?b then _ else _) = (_, Ok _) |- _ =>
      destruct b eqn:?
  end.

(** The count lines of the block are those of the three detections, in
    the order high velocity, force spikes, velocity spikes. *)
Lemma summary_problems_count_lines (df : DataFrame) (weight : Q)
  (tr : list event) :
  summary_problems df weight = (tr, Ok tt) ->
  exists hv fs la,
    find_high_velocity df 15.0 = Ok hv /\
    find_force_spikes df weight 5.0 = Ok fs /\
    find_launches df 10.0 = Ok la /\
    List.filter is_count_line tr =
      (count_line high_velocity_line hv ++
       count_line force_spikes_line fs ++
       count_line velocity_spikes_line la)%list.
Proof.
  intro H. unfold summary_problems in H. io_inv; subst;
    (eexists; eexists; eexists;
     split; [eassumption|]; split; [eassumption|]; split; [eassumption|]);
    unfold count_line;
    repeat match goal with
           | E : (_ <? _)%nat = _ |- _ => rewrite E; clear E
           end;
    reflexivity.
Qed.

(** The blocks before it print no count line. *)
Lemma summary_header_no_count (tr : list event) (r : result unit) :
  summary_header = (tr, r) -> List.filter is_count_line tr = [].
Proof. unfold summary_header. intro H. injection H as <- _. reflexivity. Qed.

Lemma summary_range_no_count (df : DataFrame) (tr : list event) (weight : Q) :
  summary_range df = (tr, Ok weight) ->
  List.filter is_count_line tr = [] /\
  exists mass, last_mass df = Ok mass /\ weight = mass * 9.81.
Proof.
  intro H. unfold summary_range in H. io_inv. subst. split; [reflexivity|].
  match goal with
  | Hm : get_column df "mass" = Ok ?m,
    Hi : item_last ?m = Ok ?c,
    Hn : py_num ?c = Ok ?x |- _ =>
      exists x; unfold last_mass; rewrite Hm; simpl; rewrite Hi; simpl;
      rewrite Hn; split; reflexivity
  end.
Qed.

Lemma summary_altitude_no_count (df : DataFrame) (tr : list event) :
  summary_altitude df = (tr, Ok tt) -> List.filter is_count_line tr = [].
Proof. intro H. unfold summary_altitude in H. io_inv; subst; reflexivity. Qed.

Lemma summary_velocity_no_count (df : DataFrame) (tr : list event) :
  summary_velocity df = (tr, Ok tt) -> List.filter is_count_line tr = [].
Proof. intro H. unfold summary_velocity in H. io_inv; subst; reflexivity. Qed.

Lemma summary_forces_no_count (df : DataFrame) (weight : Q) (tr : list event) :
  summary_forces df weight = (tr, Ok tt) -> List.filter is_count_line tr = [].
Proof. intro H. unfold summary_forces in H. io_inv; subst; reflexivity. Qed.

Lemma summary_grounded_no_count (df : DataFrame) (tr : list event) :
  summary_grounded df = (tr, Ok tt) -> List.filter is_count_line tr = [].
Proof. intro H. unfold summary_grounded in H. io_inv; subst; reflexivity. Qed.

(** C4, as the code has it.  Whenever the summary runs to its end, its
    problem-detection block reports the matches of [find_high_velocity]
    with threshold 15.0, of [find_force_spikes] with the weight of the
    last row's mass and ratio 5.0, and of [find_launches] with threshold
    10.0: the count lines of the whole report are the count lines of
    these three results, in this order, one for each result that is not
    empty.  15.0 and 10.0 are the defaults of their detectors; 5.0 is
    not the default ratio. *)
Theorem print_summary_detections (df : DataFrame) (tr : list event) :
  print_summary df = (tr, Ok tt) ->
  exists mass hv fs la,
    last_mass df = Ok mass /\
    find_high_velocity df find_high_velocity_default = Ok hv /\
    find_force_spikes df (mass * 9.81) 5.0 = Ok fs /\
    find_launches df find_launches_default = Ok la /\
    List.filter is_count_line tr =
      (count_line high_velocity_line hv ++
       count_line force_spikes_line fs ++
       count_line velocity_spikes_line la)%list /\
    ~ 5.0 == find_force_spikes_default.
Proof.
  intro H. unfold print_summary in H.
  apply bind_Ok_inv in H. destruct H as (t1 & [] & t1' & H1 & H & ->).
  apply bind_Ok_inv in H. destruct H as (t2 & weight & t2' & H2 & H & ->).
  apply bind_Ok_inv in H. destruct H as (t3 & [] & t3' & H3 & H & ->).
  apply bind_Ok_inv in H. destruct H as (t4 & [] & t4' & H4 & H & ->).
  apply bind_Ok_inv in H. destruct H as (t5 & [] & t5' & H5 & H & ->).
  apply bind_Ok_inv in H. destruct H as (t6 & [] & t6' & H6 & H & ->).
  apply summary_header_no_count in H1.
  apply summary_range_no_count in H2.
  destruct H2 as [H2 [mass [Hmass ->]]].
  apply summary_altitude_no_count in H3.
  apply summary_velocity_no_count in H4.
  apply summary_forces_no_count in H5.
  apply summary_grounded_no_count in H6.
  apply summary_problems_count_lines in H.
  destruct H as (hv & fs & la & Hhv & Hfs & Hla & Hlines).
  exists mass, hv, fs, la.
  split; [exact Hmass|]. split; [exact Hhv|]. split; [exact Hfs|].
  split; [exact Hla|]. split; [|discriminate].
  rewrite !filter_app, H1, H2, H3, H4, H5, H6, Hlines. reflexivity.
Qed.

Lemma print_summary_detections_witness :
  exists mass hv fs la,
    last_mass flight = Ok mass /\
    find_high_velocity flight find_high_velocity_default = Ok hv /\
    find_force_spikes flight (mass * 9.81) 5.0 = Ok fs /\
    find_launches flight find_launches_default = Ok la /\
    List.filter is_count_line (trace (print_summary flight)) =
      (count_line high_velocity_line hv ++
       count_line force_spikes_line fs ++
       count_line velocity_spikes_line la)%list /\
    ~ 5.0 == find_force_spikes_default.
Proof.
  apply (print_summary_detections flight (trace (print_summary flight))).
  vm_compute. reflexivity.
Defined.

(** C4, as stated, fails for the force spikes.  On the run whose largest
    hover force is 40000 N, between three and five times the weight of
    11772 N, the summary runs to its end and prints no count line at
    all, although [find_force_spikes] with the default ratio 3.0 returns
    one row. *)
Lemma print_summary_ratio_not_default :
  outcome (print_summary mild_spike) = Ok tt /\
  last_mass mild_spike = Ok 1200 /\
  find_force_spikes mild_spike (1200 * 9.81) find_force_spikes_default =
    Ok (mkDataFrame telemetry_columns [sample 0.1 0.6 1 2 40000 1 1 1200]) /\
  List.filter is_count_line (trace (print_summary mild_spike)) = [] /\
  ~ (forall (df : DataFrame) (tr : list event),
       print_summary df = (tr, Ok tt) ->
       exists mass hv fs la,
         last_mass df = Ok mass /\
         find_high_velocity df find_high_velocity_default = Ok hv /\
         find_force_spikes df (mass * 9.81) find_force_spikes_default = Ok fs /\
         find_launches df find_launches_default = Ok la /\
         List.filter is_count_line tr =
           (count_line high_velocity_line hv ++
            count_line force_spikes_line fs ++
            count_line velocity_spikes_line la)%list).
Proof.
  split; [vm_compute; reflexivity|]. split; [vm_compute; reflexivity|].
  split; [vm_compute; reflexivity|]. split; [vm_compute; reflexivity|].
  intro H.
  destruct (H mild_spike (trace (print_summary mild_spike)))
    as (mass & hv & fs & la & Hmass & Hhv & Hfs & Hla & Hlines).
  - vm_compute. reflexivity.
  - vm_compute in Hmass. injection Hmass as <-.
    vm_compute in Hhv. injection Hhv as <-.
    vm_compute in Hfs. injection Hfs as <-.
    vm_compute in Hla. injection Hla as <-.
    vm_compute in Hlines. discriminate Hlines.
Qed.

(** * Further properties *)

(** ** Velocity deltas and launches *)

Lemma diff_from_length (prev : cell) (s : Series) :
  List.length (diff_from prev s) = List.length s.
Proof.
  revert prev. induction s as [|x s IH]; intro prev; simpl; [reflexivity|].
  rewrite IH. reflexivity.
Qed.

Lemma series_diff_length (s : Series) :
  List.length (series_diff s) = List.length s.
Proof. destruct s; simpl; [reflexivity|]. rewrite diff_from_length. reflexivity. Qed.

(** Every value but the first is paired with the value just before it. *)
Lemma diff_from_nth (prev : cell) (s : Series) (i : nat) (x : cell) :
  nth_error s i = Some x ->
  nth_error (diff_from prev s) i =
  Some (cell_sub x (match i with O => prev | S j => nth j s None end)).
Proof.
  revert prev i. induction s as [|y s IH]; intros prev [|i] H; simpl in *;
    try discriminate.
  - injection H as ->. reflexivity.
  - rewrite (IH y i H). destruct i; reflexivity.
Qed.

Lemma series_diff_nth (s : Series) (i : nat) (x : cell) :
  nth_error s (S i) = Some x ->
  nth_error (series_diff s) (S i) = Some (cell_sub x (nth i s None)).
Proof.
  destruct s as [|y s]; simpl; [discriminate|]. intro H.
  rewrite (diff_from_nth y s i x H). destruct i; reflexivity.
Qed.

(** The first pair carries a null delta, so it is never kept. *)
Lemma launch_rows_length (df : DataFrame) (k : Q) :
  (List.length (launch_rows df k) <= List.length (rows df) - 1)%nat.
Proof.
  unfold launch_rows, v_vel_deltas. destruct (rows df) as [|r rs]; simpl.
  - lia.
  - rewrite Nat.sub_0_r.
    match goal with
    | |- (List.length (List.filter ?p ?l) <= _)%nat =>
        pose proof (filter_length_le p l) as Hle
    end.
    rewrite length_combine in Hle. lia.
Qed.

(** X1.  On every well-formed table with a [v_vel] column: the delta of the
    first row is null; the delta of any other row is its [v_vel] minus
    the [v_vel] of the row just before it, null when either is null;
    [find_launches] returns the rows whose delta is above the threshold,
    each carrying its delta, so it returns at most one row less than the
    table has and nothing for a table of fewer than two rows. *)
Theorem find_launches_exact (df : DataFrame) (k : Q) :
  well_formed df ->
  In "v_vel" (columns df) ->
  exists out,
    find_launches df k = Ok out /\
    columns out = put_name (columns df) "v_vel_delta" /\
    rows out =
      map (fun rd => with_delta (columns df) (fst rd) (snd rd))
        (List.filter (fun rd => aboveb k (snd rd))
           (combine (rows df) (v_vel_deltas df))) /\
    List.length (v_vel_deltas df) = height df /\
    (forall r, nth_error (rows df) 0 = Some r ->
               nth_error (v_vel_deltas df) 0 = Some None) /\
    (forall i r, nth_error (rows df) (S i) = Some r ->
       exists p, nth_error (rows df) i = Some p /\
                 nth_error (v_vel_deltas df) (S i) =
                 Some (cell_sub (cell_at (columns df) "v_vel" r)
                                (cell_at (columns df) "v_vel" p))) /\
    (height out <= height df - 1)%nat /\
    ((height df < 2)%nat -> rows out = []).
Proof.
  intros Hwf Hv. rewrite find_launches_rows by assumption.
  eexists. split; [reflexivity|]. split; [reflexivity|].
  split; [reflexivity|].
  assert (Hlen : (List.length (launch_rows df k) <= height df - 1)%nat)
    by apply launch_rows_length.
  split; [|split; [|split; [|split]]].
  - unfold v_vel_deltas, height.
    rewrite series_diff_length, length_map. reflexivity.
  - intros r Hr. unfold v_vel_deltas.
    destruct (rows df); [discriminate | reflexivity].
  - intros i r Hr.
    assert (Hi : (i < List.length (rows df))%nat).
    { apply Nat.lt_trans with (S i); [lia|].
      apply nth_error_Some. congruence. }
    destruct (nth_error (rows df) i) as [p|] eqn:Ep;
      [|apply nth_error_None in Ep; lia].
    exists p. split; [reflexivity|]. unfold v_vel_deltas.
    rewrite (series_diff_nth _ i (cell_at (columns df) "v_vel" r)).
    + f_equal. f_equal.
      rewrite (nth_indep _ None (cell_at (columns df) "v_vel" p))
        by (rewrite length_map; exact Hi).
      rewrite map_nth. f_equal. apply nth_error_nth, Ep.
    + apply map_nth_error, Hr.
  - unfold height at 1. simpl. rewrite length_map. exact Hlen.
  - intro Hsmall. simpl. fold (launch_rows df k).
    destruct (launch_rows df k); [reflexivity|]. simpl in Hlen. lia.
Qed.

Lemma find_launches_exact_witness :
  exists out,
    find_launches flight 10 = Ok out /\
    columns out = put_name (columns flight) "v_vel_delta" /\
    rows out =
      map (fun rd => with_delta (columns flight) (fst rd) (snd rd))
        (List.filter (fun rd => aboveb 10 (snd rd))
           (combine (rows flight) (v_vel_deltas flight))) /\
    List.length (v_vel_deltas flight) = height flight /\
    (forall r, nth_error (rows flight) 0 = Some r ->
               nth_error (v_vel_deltas flight) 0 = Some None) /\
    (forall i r, nth_error (rows flight) (S i) = Some r ->
       exists p, nth_error (rows flight) i = Some p /\
                 nth_error (v_vel_deltas flight) (S i) =
                 Some (cell_sub (cell_at (columns flight) "v_vel" r)
                                (cell_at (columns flight) "v_vel" p))) /\
    (height out <= height flight - 1)%nat /\
    ((height flight < 2)%nat -> rows out = []).
Proof.
  apply (find_launches_exact flight 10).
  - unfold well_formed. simpl. repeat constructor.
  - simpl. tauto.
Defined.

(** ** Missing columns *)




(** ** Thresholds *)

(** X3.  Raising the velocity threshold narrows the result of
    [find_high_velocity] and of [find_launches]: the rows returned for
    the higher threshold are a subsequence of those returned for the
    lower one. *)
Theorem velocity_thresholds_narrow (df : DataFrame) (k k' : Q) :
  well_formed df ->
  In "v_vel" (columns df) ->
  k <= k' ->
  exists hv hv' la la',
    find_high_velocity df k = Ok hv /\
    find_high_velocity df k' = Ok hv' /\
    Subseq (rows hv') (rows hv) /\
    find_launches df k = Ok la /\
    find_launches df k' = Ok la' /\
    Subseq (rows la') (rows la).
Proof.
  intros Hwf Hv Hk. unfold find_high_velocity.
  rewrite !filter_gt by exact Hv. rewrite !find_launches_rows by assumption.
  do 4 eexists. split; [reflexivity|]. split; [reflexivity|]. split.
  - simpl. apply Subseq_filter_impl. intros x _ Hx.
    apply aboveb_spec. apply aboveb_spec in Hx.
    exact (above_mono _ _ _ Hk Hx).
  - split; [reflexivity|]. split; [reflexivity|]. simpl.
    apply Subseq_map. unfold launch_rows.
    apply Subseq_filter_impl. intros x _ Hx.
    apply aboveb_spec. apply aboveb_spec in Hx.
    exact (above_mono _ _ _ Hk Hx).
Qed.

Lemma velocity_thresholds_narrow_witness :
  exists hv hv' la la',
    find_high_velocity flight 10 = Ok hv /\
    find_high_velocity flight 15 = Ok hv' /\
    Subseq (rows hv') (rows hv) /\
    find_launches flight 10 = Ok la /\
    find_launches flight 15 = Ok la' /\
    Subseq (rows la') (rows la).
Proof.
  apply (velocity_thresholds_narrow flight 10 15).
  - unfold well_formed. simpl. repeat constructor.
  - simpl. tauto.
  - discriminate.
Defined.

(** ** Composing the detectors *)

Lemma filter_idem {A : Type} (p : A -> bool) (l : list A) :
  List.filter p (List.filter p l) = List.filter p l.
Proof.
  induction l as [|x l IH]; simpl; [reflexivity|].
  destruct (p x) eqn:E; simpl; [rewrite E, IH; reflexivity | exact IH].
Qed.

Lemma filter_comm {A : Type} (p q : A -> bool) (l : list A) :
  List.filter p (List.filter q l) = List.filter q (List.filter p l).
Proof.
  induction l as [|x l IH]; simpl; [reflexivity|].
  destruct (p x) eqn:Ep, (q x) eqn:Eq; simpl; rewrite ?Ep, ?Eq, IH;
    reflexivity.
Qed.

(** X4.  Running a detector on its own result changes nothing. *)
Theorem detectors_idempotent (df : DataFrame) (k w r c win : Q) :
  In "v_vel" (columns df) ->
  In "hover_mag" (columns df) ->
  In "t" (columns df) ->
  exists hv fs ctx,
    find_high_velocity df k = Ok hv /\
    find_high_velocity hv k = Ok hv /\
    find_force_spikes df w r = Ok fs /\
    find_force_spikes fs w r = Ok fs /\
    get_context df c win = Ok ctx /\
    get_context ctx c win = Ok ctx.
Proof.
  intros Hv Hh Ht. unfold find_high_velocity, find_force_spikes, get_context.
  rewrite (filter_gt df "v_vel" Hv), (filter_gt df "hover_mag" Hh),
    (filter_between df "t" Ht).
  do 3 eexists.
  split; [reflexivity|]. split.
  { rewrite filter_gt by exact Hv. simpl. rewrite filter_idem. reflexivity. }
  split; [reflexivity|]. split.
  { rewrite filter_gt by exact Hh. simpl. rewrite filter_idem. reflexivity. }
  split; [reflexivity|].
  rewrite filter_between by exact Ht. simpl. rewrite filter_idem. reflexivity.
Qed.

Lemma detectors_idempotent_witness :
  exists hv fs ctx,
    find_high_velocity flight 10 = Ok hv /\
    find_high_velocity hv 10 = Ok hv /\
    find_force_spikes flight 11772 3 = Ok fs /\
    find_force_spikes fs 11772 3 = Ok fs /\
    get_context flight 0.2 0.1 = Ok ctx /\
    get_context ctx 0.2 0.1 = Ok ctx.
Proof.
  apply (detectors_idempotent flight 10 11772 3 0.2 0.1); simpl; tauto.
Defined.

(** X5.  The row filters commute: the force spikes among the high-velocity
    rows are the high-velocity rows among the force spikes, and the
    context window of the high-velocity rows is the high-velocity part
    of the context window.  Either way the rows are those that both
    detectors return. *)
Theorem detectors_commute (df : DataFrame) (k w r c win : Q) :
  In "v_vel" (columns df) ->
  In "hover_mag" (columns df) ->
  In "t" (columns df) ->
  exists hv fs ctx both near,
    find_high_velocity df k = Ok hv /\
    find_force_spikes df w r = Ok fs /\
    get_context df c win = Ok ctx /\
    find_force_spikes hv w r = Ok both /\
    find_high_velocity fs k = Ok both /\
    get_context hv c win = Ok near /\
    find_high_velocity ctx k = Ok near /\
    (forall x, In x (rows both) <-> In x (rows hv) /\ In x (rows fs)) /\
    (forall x, In x (rows near) <-> In x (rows hv) /\ In x (rows ctx)).
Proof.
  intros Hv Hh Ht. unfold find_high_velocity, find_force_spikes, get_context.
  rewrite (filter_gt df "v_vel" Hv), (filter_gt df "hover_mag" Hh),
    (filter_between df "t" Ht).
  do 5 eexists.
  split; [reflexivity|]. split; [reflexivity|]. split; [reflexivity|].
  split; [rewrite filter_gt by exact Hh; reflexivity|].
  split; [rewrite filter_gt by exact Hv; simpl; rewrite filter_comm;
          reflexivity|].
  split; [rewrite filter_between by exact Ht; reflexivity|].
  split; [rewrite filter_gt by exact Hv; simpl; rewrite filter_comm;
          reflexivity|].
  simpl. split; intro x; rewrite !filter_In; tauto.
Qed.

Lemma detectors_commute_witness :
  exists hv fs ctx both near,
    find_high_velocity flight 10 = Ok hv /\
    find_force_spikes flight 11772 3 = Ok fs /\
    get_context flight 0.2 0.1 = Ok ctx /\
    find_force_spikes hv 11772 3 = Ok both /\
    find_high_velocity fs 10 = Ok both /\
    get_context hv 0.2 0.1 = Ok near /\
    find_high_velocity ctx 10 = Ok near /\
    (forall x, In x (rows both) <-> In x (rows hv) /\ In x (rows fs)) /\
    (forall x, In x (rows near) <-> In x (rows hv) /\ In x (rows ctx)).
Proof.
  apply (detectors_commute flight 10 11772 3 0.2 0.1); simpl; tauto.
Defined.

(** ** Degenerate windows *)




(** ** What a run reads *)

Lemma only_prints_bind {A B : Type} (m : IO A) (f : A -> IO B) :
  only_prints m -> (forall a, only_prints (f a)) -> only_prints (bind m f).
Proof.
  unfold only_prints, trace, bind. destruct m as [tr [a|e]]; simpl.
  - intros Hm Hf. specialize (Hf a). destruct (f a) as [tr' r]. simpl in *.
    rewrite forallb_app, Hm, Hf. reflexivity.
  - intros Hm _. exact Hm.
Qed.

Lemma only_prints_lift {A : Type} (r : result A) : only_prints (lift r).
Proof. reflexivity. Qed.

Lemma only_prints_print (l : line) : only_prints (print l).
Proof. reflexivity. Qed.

Lemma only_prints_ret {A : Type} (a : A) : only_prints (ret a).
Proof. reflexivity. Qed.

Ltac only_prints_steps :=
  repeat first
    [ apply only_prints_lift
    | apply only_prints_print
    | apply only_prints_ret
    | apply only_prints_bind; [|intro]
    | match goal with
      | |- only_prints (if ?b then _ else _) => destruct b
      end
    | progress cbv zeta ].

Lemma print_summary_only_prints (df : DataFrame) :
  only_prints (print_summary df).
Proof.
  unfold print_summary, summary_header, summary_range, summary_altitude,
    summary_velocity, summary_forces, summary_grounded, summary_problems.
  only_prints_steps.
Qed.

Lemma print_problem_context_only_prints (df : DataFrame) :
  only_prints (print_problem_context df).
Proof. unfold print_problem_context. only_prints_steps. Qed.

Lemma print_around_time_only_prints (df : DataFrame) (time w : Q) :
  only_prints (print_around_time df time w).
Proof. unfold print_around_time. only_prints_steps. Qed.

(** X7.  Whatever the options, the table and the outcome of the reports, a
    run on an existing path reads the file once, before anything is
    printed, and never again: the trace is the read followed by printed
    lines only. *)
Theorem main_reads_once (fs : filesystem) (args : Namespace)
  (r : result DataFrame) :
  fs (file args) = Some r ->
  exists tr,
    trace (main fs args) = ReadCsv (file args) :: tr /\
    forallb is_print tr = true.
Proof.
  intro H. unfold main, path_exists, load_telemetry. rewrite H.
  cbn [negb]. cbv iota.
  destruct r as [df|e].
  - match goal with
    | |- context [bind _ ?f] =>
        assert (Hrest : only_prints (f df))
    end.
    { cbv beta zeta.
      repeat first
        [ apply print_summary_only_prints
        | apply print_problem_context_only_prints
        | apply print_around_time_only_prints
        | apply only_prints_ret
        | apply only_prints_bind; [|intro]
        | match goal with
          | |- only_prints (match ?x with _ => _ end) => destruct x
          end ]. }
    unfold bind at 1. cbv beta in Hrest.
    match type of Hrest with
    | only_prints ?m => destruct m as [tr' r'] eqn:E
    end.
    exists tr'. split; [reflexivity | exact Hrest].
  - exists []. split; reflexivity.
Qed.

Lemma main_reads_once_witness :
  exists tr,
    trace (main disk (mkNamespace "telemetry.csv" true false None 0.5)) =
      ReadCsv "telemetry.csv" :: tr /\
    forallb is_print tr = true.
Proof.
  apply (main_reads_once disk
           (mkNamespace "telemetry.csv" true false None 0.5) (Ok flight)).
  reflexivity.
Defined.

(** X8.  A file that exists but that [pl.read_csv] rejects: the exception of
    the parser ends the run right after the read, nothing is printed,
    and the exit status is 1. *)
Theorem main_malformed_file (fs : filesystem) (args : Namespace) (e : exn) :
  fs (file args) = Some (Raise e) ->
  (forall code, e <> SystemExit code) ->
  main fs args = ([ReadCsv (file args)], Raise e) /\
  printed (trace (main fs args)) = [] /\
  exit_status (outcome (main fs args)) = 1%Z.
Proof.
  intros H He.
  assert (E : main fs args = ([ReadCsv (file args)], Raise e)).
  { unfold main, path_exists, load_telemetry. rewrite H. reflexivity. }
  rewrite E. split; [reflexivity|]. split; [reflexivity|].
  simpl. destruct e; try reflexivity. exfalso. exact (He code eq_refl).
Qed.

Lemma main_malformed_file_witness :
  main (fun _ => Some (Raise ComputeError))
       (mkNamespace "broken.csv" false false None 0.5) =
    ([ReadCsv "broken.csv"], Raise ComputeError) /\
  printed
    (trace (main (fun _ => Some (Raise ComputeError))
              (mkNamespace "broken.csv" false false None 0.5))) = [] /\
  exit_status
    (outcome (main (fun _ => Some (Raise ComputeError))
                (mkNamespace "broken.csv" false false None 0.5))) = 1%Z.
Proof.
  apply (main_malformed_file (fun _ => Some (Raise ComputeError))
           (mkNamespace "broken.csv" false false None 0.5) ComputeError).
  - reflexivity.
  - discriminate.
Defined.

(** ** Which reports run *)

Lemma bind_ret_r (m : IO unit) : bind m (fun _ => ret tt) = m.
Proof.
  destruct m as [tr [[]|e]]; simpl; [rewrite app_nil_r|]; reflexivity.
Qed.

Lemma bind_ret_l {A B : Type} (a : A) (f : A -> IO B) : bind (ret a) f = f a.
Proof. unfold bind, ret. destruct (f a). reflexivity. Qed.

Lemma bind_event {A B : Type} (e : event) (a : A) (f : A -> IO B) :
  bind ([e], Ok a) f = (e :: trace (f a), outcome (f a)).
Proof. unfold bind. destruct (f a). reflexivity. Qed.

(** X9.  On a file that parses: [--summary] alone runs the summary only,
    [--context] alone the context report only, [--around] with a time
    other than 0 the around-time report only; with no option the summary
    runs and, if it ends normally, the context report after it.  The
    outcome of the run is the outcome of the reports. *)
Theorem main_runs_requested (fs : filesystem) (path : string) (time w : Q)
  (df : DataFrame) :
  fs path = Some (Ok df) ->
  ~ time == 0 ->
  main fs (mkNamespace path true false None w) =
    (ReadCsv path :: trace (print_summary df), outcome (print_summary df)) /\
  main fs (mkNamespace path false true None w) =
    (ReadCsv path :: trace (print_problem_context df),
     outcome (print_problem_context df)) /\
  main fs (mkNamespace path false false (Some time) w) =
    (ReadCsv path :: trace (print_around_time df time w),
     outcome (print_around_time df time w)) /\
  main fs (mkNamespace path false false None w) =
    (ReadCsv path :: trace (print_summary df ;; print_problem_context df),
     outcome (print_summary df ;; print_problem_context df)).
Proof.
  intros H Hne.
  assert (Hq : Qeq_bool time 0 = false).
  { destruct (Qeq_bool time 0) eqn:E; [|reflexivity].
    apply Qeq_bool_iff in E. contradiction. }
  unfold main, path_exists, load_telemetry, any_action.
  cbn [file summary context around window truthy orb negb]. rewrite H, Hq.
  cbn [negb orb file summary context around window].
  rewrite !bind_event. cbv beta.
  repeat (rewrite ?bind_ret_l, ?bind_ret_r; cbv beta).
  repeat split; reflexivity.
Qed.

Lemma main_runs_requested_witness :
  main disk (mkNamespace "telemetry.csv" true false None 0.5) =
    (ReadCsv "telemetry.csv" :: trace (print_summary flight),
     outcome (print_summary flight)) /\
  main disk (mkNamespace "telemetry.csv" false true None 0.5) =
    (ReadCsv "telemetry.csv" :: trace (print_problem_context flight),
     outcome (print_problem_context flight)) /\
  main disk (mkNamespace "telemetry.csv" false false (Some 0.2) 0.5) =
    (ReadCsv "telemetry.csv" :: trace (print_around_time flight 0.2 0.5),
     outcome (print_around_time flight 0.2 0.5)) /\
  main disk (mkNamespace "telemetry.csv" false false None 0.5) =
    (ReadCsv "telemetry.csv" ::
       trace (print_summary flight ;; print_problem_context flight),
     outcome (print_summary flight ;; print_problem_context flight)).
Proof.
  apply (main_runs_requested disk "telemetry.csv" 0.2 0.5 flight).
  - reflexivity.
  - discriminate.
Defined.

(** ** The reports on an empty table *)

(** X10.  On a table without rows that has the columns [t] and [mass], the
    summary prints its banner and then raises [IndexError] (the mass of
    the last row is asked for), the context report raises [IndexError]
    before printing anything, and the around-time report prints the
    no-data line and returns normally. *)
Theorem reports_on_empty_table (cs : list string) (c w : Q) :
  In "t" cs ->
  In "mass" cs ->
  print_summary (mkDataFrame cs []) = (banner, Raise IndexError) /\
  print_problem_context (mkDataFrame cs []) = ([], Raise IndexError) /\
  print_around_time (mkDataFrame cs []) c w =
    ([Print (no_data_line c)], Ok tt).
Proof.
  intros Ht Hm.
  destruct (index_of_In _ _ Ht) as [i Hi].
  destruct (index_of_In _ _ Hm) as [j Hj].
  split; [|split].
  - unfold print_summary, summary_header, summary_range, get_column.
    simpl. rewrite Hi, Hj. reflexivity.
  - unfold print_problem_context, get_column. simpl. rewrite Hj. reflexivity.
  - rewrite (print_around_time_unfold _ c w (mkDataFrame cs [])).
    + reflexivity.
    + unfold get_context. rewrite filter_between by exact Ht. reflexivity.
Qed.

Lemma reports_on_empty_table_witness :
  print_summary (mkDataFrame telemetry_columns []) =
    (banner, Raise IndexError) /\
  print_problem_context (mkDataFrame telemetry_columns []) =
    ([], Raise IndexError) /\
  print_around_time (mkDataFrame telemetry_columns []) 0.2 0.5 =
    ([Print (no_data_line 0.2)], Ok tt).
Proof.
  apply (reports_on_empty_table telemetry_columns 0.2 0.5); simpl; tauto.
Defined.

(** ** What the summary needs to run to its end *)

Lemma equalsb_spec (k : Q) (c : cell) : equalsb k c = true <-> equals k c.
Proof.
  unfold equalsb, equals. destruct c as [x|].
  - rewrite Qeq_bool_iff. split.
    + intro H. exists x. split; [reflexivity | exact H].
    + intros [y [Hy H]]. injection Hy as <-. exact H.
  - split; [discriminate | intros [y [Hy _]]; discriminate].
Qed.

Lemma get_column_Ok (df : DataFrame) (name : string) (s : Series) :
  get_column df name = Ok s ->
  In name (columns df) /\ s = map (cell_at (columns df) name) (rows df).
Proof.
  unfold get_column, cell_at.
  destruct (index_of name (columns df)) as [i|] eqn:E; [|discriminate].
  intro H. injection H as <-. split; [|reflexivity].
  apply (index_of_Some _ _ _ E).
Qed.

(** [df.filter(pl.col(name) == k)] succeeds only on a table with the
    column, and keeps the rows equal to [k]. *)
Lemma filter_eq_Ok (df out : DataFrame) (name : string) (k : Q) :
  filter df (eq (col name) (lit k)) = Ok out ->
  In name (columns df) /\
  out = mkDataFrame (columns df)
          (List.filter (fun r => equalsb k (cell_at (columns df) name r))
             (rows df)).
Proof.
  unfold filter, cell_at. simpl. unfold eval_cmp. simpl. unfold get_column.
  destruct (index_of name (columns df)) as [i|] eqn:E; [|discriminate].
  intro H. injection H as <-. split; [apply (index_of_Some _ _ _ E)|].
  rewrite zip_with_map, keep_map. f_equal. apply filter_ext. intro r.
  unfold equalsb. destruct (cell_nth i r) as [x|]; simpl; [|reflexivity].
  destruct (Qeq_bool x k); reflexivity.
Qed.

Lemma non_null_In (s : Series) :
  non_null s <> [] -> exists x, In (Some x) s.
Proof.
  induction s as [|[x|] s IH]; simpl; intro H.
  - contradiction.
  - exists x. left. reflexivity.
  - destruct (IH H) as [x Hx]. exists x. right. exact Hx.
Qed.

Lemma series_mean_Some (s : Series) (m : Q) :
  series_mean s = Some m -> non_null s <> [].
Proof.
  unfold series_mean. destruct (non_null s); [discriminate|]. discriminate.
Qed.

Lemma py_div_Ok (x y q : Q) : py_div x y = Ok q -> ~ y == 0 /\ q = x / y.
Proof.
  unfold py_div. destruct (Qeq_bool y 0) eqn:E; [discriminate|].
  intro H. injection H as <-. split; [|reflexivity].
  intro Hz. apply Qeq_bool_iff in Hz. congruence.
Qed.

Lemma last_map {A B : Type} (f : A -> B) (l : list A) (a : A) (b : B) :
  l <> [] -> last (map f l) b = f (last l a).
Proof.
  induction l as [|x l IH]; [contradiction|]. intros _.
  destruct l as [|y l]; [reflexivity|].
  change (last (f y :: map f l) b = f (last (y :: l) a)).
  apply IH. discriminate.
Qed.

Lemma item_last_map (f : row -> cell) (l : list row) :
  l <> [] -> item_last (map f l) = Ok (f (last l [])).
Proof.
  intro H. destruct l as [|x l]; [contradiction|].
  unfold item_last. cbn [map]. f_equal.
  exact (last_map f (x :: l) [] None H).
Qed.

(** The mass the reports use is the [mass] cell of the last row. *)
Lemma last_mass_Ok (df : DataFrame) (mass : Q) :
  last_mass df = Ok mass ->
  rows df <> [] /\
  In "mass" (columns df) /\
  cell_at (columns df) "mass" (last (rows df) []) = Some mass.
Proof.
  unfold last_mass, rbind.
  destruct (get_column df "mass") as [m|] eqn:Em; [|discriminate].
  destruct (get_column_Ok _ _ _ Em) as [Hin ->].
  destruct (rows df) as [|r rs] eqn:Er; [discriminate|].
  rewrite item_last_map by discriminate.
  intro H. apply py_num_Ok_inv in H.
  split; [discriminate|]. split; assumption.
Qed.

(** X11.  If the summary runs to its end, then the table has a row, the mass of
    its last row is a number other than zero, and some row is grounded
    (its [grounded] is 1) with a number as [hover_mag].  On a table
    without such a row the summary stops with an exception before the
    problem-detection block is reached. *)
Theorem print_summary_needs (df : DataFrame) (tr : list event) :
  print_summary df = (tr, Ok tt) ->
  rows df <> [] /\
  (exists mass,
     cell_at (columns df) "mass" (last (rows df) []) = Some mass /\
     ~ mass == 0) /\
  (exists r,
     In r (rows df) /\
     equals 1 (cell_at (columns df) "grounded" r) /\
     exists h, cell_at (columns df) "hover_mag" r = Some h).
Proof.
  intro H. unfold print_summary in H.
  apply bind_Ok_inv in H. destruct H as (t1 & [] & t1' & _ & H & _).
  apply bind_Ok_inv in H. destruct H as (t2 & weight & t2' & H2 & H & _).
  apply bind_Ok_inv in H. destruct H as (t3 & [] & t3' & _ & H & _).
  apply bind_Ok_inv in H. destruct H as (t4 & [] & t4' & _ & H & _).
  apply bind_Ok_inv in H. destruct H as (t5 & [] & t5' & H5 & _ & _).
  apply summary_range_no_count in H2.
  destruct H2 as [_ [mass [Hmass ->]]].
  destruct (last_mass_Ok _ _ Hmass) as [Hne [_ Hlast]].
  unfold summary_forces in H5. io_inv. subst.
  split; [exact Hne|]. split.
  - exists mass. split; [exact Hlast|].
    match goal with
    | Hd : py_div _ (mass * 9.81) = Ok _ |- _ =>
        apply py_div_Ok in Hd; destruct Hd as [Hw _]
    end.
    intro Hz. apply Hw. rewrite Hz. reflexivity.
  - match goal with
    | Hf : filter df (eq (col "grounded") (lit 1)) = Ok ?g,
      Hc : get_column ?g "hover_mag" = Ok ?s,
      Hm : series_mean ?s = Some _ |- _ =>
        apply filter_eq_Ok in Hf; destruct Hf as [_ ->];
        apply get_column_Ok in Hc; destruct Hc as [_ ->];
        apply series_mean_Some, non_null_In in Hm;
        destruct Hm as [h Hh]
    end.
    simpl in Hh. apply in_map_iff in Hh. destruct Hh as [r [Hr Hin]].
    apply filter_In in Hin. destruct Hin as [Hin Hg].
    exists r. split; [exact Hin|]. split; [apply equalsb_spec, Hg|].
    exists h. exact Hr.
Qed.

Lemma print_summary_needs_witness :
  rows flight <> [] /\
  (exists mass,
     cell_at (columns flight) "mass" (last (rows flight) []) = Some mass /\
     ~ mass == 0) /\
  (exists r,
     In r (rows flight) /\
     equals 1 (cell_at (columns flight) "grounded" r) /\
     exists h, cell_at (columns flight) "hover_mag" r = Some h).
Proof.
  apply (print_summary_needs flight (trace (print_summary flight))).
  vm_compute. reflexivity.
Defined.

(** ** Minimum, maximum and mean *)

Lemma Qmin_b_spec (x y : Q) :
  Qmin_b x y <= x /\ Qmin_b x y <= y /\ (Qmin_b x y = x \/ Qmin_b x y = y).
Proof.
  unfold Qmin_b. destruct (Qle_bool x y) eqn:E.
  - apply Qle_bool_iff in E. repeat split; [apply Qle_refl | exact E | auto].
  - assert (y < x) by (apply Qlt_bool_iff; unfold Qlt_bool; rewrite E; reflexivity).
    repeat split; [apply Qlt_le_weak; assumption | apply Qle_refl | auto].
Qed.

Lemma Qmax_b_spec (x y : Q) :
  x <= Qmax_b x y /\ y <= Qmax_b x y /\ (Qmax_b x y = x \/ Qmax_b x y = y).
Proof.
  unfold Qmax_b. destruct (Qle_bool x y) eqn:E.
  - apply Qle_bool_iff in E. repeat split; [exact E | apply Qle_refl | auto].
  - assert (y < x) by (apply Qlt_bool_iff; unfold Qlt_bool; rewrite E; reflexivity).
    repeat split; [apply Qle_refl | apply Qlt_le_weak; assumption | auto].
Qed.

Lemma fold_min_spec (xs : list Q) (x : Q) :
  (forall y, In y (x :: xs) -> fold_left Qmin_b xs x <= y) /\
  In (fold_left Qmin_b xs x) (x :: xs).
Proof.
  revert x. induction xs as [|z xs IH]; intro x; simpl.
  - split; [intros y [<-|[]]; apply Qle_refl | auto].
  - destruct (IH (Qmin_b x z)) as [Hle Hin].
    destruct (Qmin_b_spec x z) as [Hx [Hz Hor]]. split.
    + intros y [<-|[<-|Hy]].
      * apply Qle_trans with (Qmin_b x z); [apply Hle; left; reflexivity|exact Hx].
      * apply Qle_trans with (Qmin_b x z); [apply Hle; left; reflexivity|exact Hz].
      * apply Hle. right. exact Hy.
    + destruct Hin as [Hin|Hin]; [|auto].
      rewrite <- Hin. destruct Hor as [->| ->]; auto.
Qed.

Lemma fold_max_spec (xs : list Q) (x : Q) :
  (forall y, In y (x :: xs) -> y <= fold_left Qmax_b xs x) /\
  In (fold_left Qmax_b xs x) (x :: xs).
Proof.
  revert x. induction xs as [|z xs IH]; intro x; simpl.
  - split; [intros y [<-|[]]; apply Qle_refl | auto].
  - destruct (IH (Qmax_b x z)) as [Hle Hin].
    destruct (Qmax_b_spec x z) as [Hx [Hz Hor]]. split.
    + intros y [<-|[<-|Hy]].
      * apply Qle_trans with (Qmax_b x z); [exact Hx|apply Hle; left; reflexivity].
      * apply Qle_trans with (Qmax_b x z); [exact Hz|apply Hle; left; reflexivity].
      * apply Hle. right. exact Hy.
    + destruct Hin as [Hin|Hin]; [|auto].
      rewrite <- Hin. destruct Hor as [->| ->]; auto.
Qed.

Lemma non_null_iff (s : Series) (x : Q) : In x (non_null s) <-> In (Some x) s.
Proof.
  induction s as [|[y|] s IH]; simpl.
  - tauto.
  - rewrite IH. split; intros [H|H]; auto.
    + left. congruence.
    + left. congruence.
  - rewrite IH. split; [auto | intros [H|H]; [discriminate | exact H]].
Qed.

(** The minimum of a series is one of its values and below all of them. *)
Lemma series_min_spec (s : Series) (lo : Q) :
  series_min s = Some lo ->
  In (Some lo) s /\ forall x, In (Some x) s -> lo <= x.
Proof.
  unfold series_min, fold1. destruct (non_null s) as [|x xs] eqn:E;
    [discriminate|].
  intro H. injection H as <-. destruct (fold_min_spec xs x) as [Hle Hin].
  split.
  - apply non_null_iff. rewrite E. exact Hin.
  - intros y Hy. apply Hle. rewrite <- E. apply non_null_iff, Hy.
Qed.

(** The maximum of a series is one of its values and above all of them. *)
Lemma series_max_spec (s : Series) (hi : Q) :
  series_max s = Some hi ->
  In (Some hi) s /\ forall x, In (Some x) s -> x <= hi.
Proof.
  unfold series_max, fold1. destruct (non_null s) as [|x xs] eqn:E;
    [discriminate|].
  intro H. injection H as <-. destruct (fold_max_spec xs x) as [Hle Hin].
  split.
  - apply non_null_iff. rewrite E. exact Hin.
  - intros y Hy. apply Hle. rewrite <- E. apply non_null_iff, Hy.
Qed.




(** ** The opening of the summary *)

(** The lines after the banner: time range, samples, mass and weight. *)
Lemma summary_range_run (df : DataFrame) (tr : list event) (weight : Q) :
  summary_range df = (tr, Ok weight) ->
  exists mass lo hi ts,
    last_mass df = Ok mass /\
    weight = mass * 9.81 /\
    get_column df "t" = Ok ts /\
    series_min ts = Some lo /\
    series_max ts = Some hi /\
    tr = [Print [NL; Str "Time range: "; Fixed 2 lo; Str "s - "; Fixed 2 hi;
                 Str "s ("; Fixed 2 (hi - lo); Str "s total)"];
          Print [Str "Samples: "; Int (height df)];
          Print [Str "Mass: "; Fixed 1 mass; Str " kg"];
          Print [Str "Weight: "; Fixed 0 (mass * 9.81); Str " N"]].
Proof.
  intro H. unfold summary_range in H. io_inv. subst.
  match goal with
  | Hm : get_column df "mass" = Ok ?m,
    Hi : item_last ?m = Ok ?c,
    Hn : py_num ?c = Ok ?x,
    Ht1 : get_column df "t" = Ok ?s1,
    Ht2 : get_column df "t" = Ok ?s2,
    Hlo : series_min ?s1 = Some ?lo,
    Hhi : series_max ?s2 = Some ?hi,
    Plo : py_num (series_min ?s1) = Ok ?lo',
    Phi : py_num (series_max ?s2) = Ok ?hi' |- _ =>
      exists x, lo, hi, s1;
      assert (s2 = s1) by congruence; subst s2;
      rewrite Hlo in Plo; rewrite Hhi in Phi;
      injection Plo as <-; injection Phi as <-;
      split; [unfold last_mass; rewrite Hm; simpl; rewrite Hi; simpl;
              exact Hn|];
      repeat split; assumption
  end.
Qed.

(** X12.  If the summary runs to its end, its output opens with the banner,
    then the time range from the smallest to the largest [t] of the
    table (whatever the order of the rows) with their difference, the
    number of rows, the mass found in the last row, and that mass times
    9.81 as the weight. *)
Theorem print_summary_opening (df : DataFrame) (tr : list event) :
  print_summary df = (tr, Ok tt) ->
  exists mass lo hi rest,
    cell_at (columns df) "mass" (last (rows df) []) = Some mass /\
    (exists r, In r (rows df) /\ cell_at (columns df) "t" r = Some lo) /\
    (exists r, In r (rows df) /\ cell_at (columns df) "t" r = Some hi) /\
    (forall r x, In r (rows df) -> cell_at (columns df) "t" r = Some x ->
                 lo <= x /\ x <= hi) /\
    tr = (banner ++
          [Print [NL; Str "Time range: "; Fixed 2 lo; Str "s - "; Fixed 2 hi;
                  Str "s ("; Fixed 2 (hi - lo); Str "s total)"];
           Print [Str "Samples: "; Int (List.length (rows df))];
           Print [Str "Mass: "; Fixed 1 mass; Str " kg"];
           Print [Str "Weight: "; Fixed 0 (mass * 9.81); Str " N"]] ++
          rest)%list.
Proof.
  intro H. unfold print_summary in H.
  apply bind_Ok_inv in H. destruct H as (t1 & [] & t1' & H1 & H & ->).
  apply bind_Ok_inv in H. destruct H as (t2 & weight & rest & H2 & _ & ->).
  unfold summary_header in H1. injection H1 as <-.
  apply summary_range_run in H2.
  destruct H2 as (mass & lo & hi & ts & Hmass & _ & Hts & Hlo & Hhi & ->).
  destruct (last_mass_Ok _ _ Hmass) as [_ [_ Hlast]].
  destruct (get_column_Ok _ _ _ Hts) as [_ ->].
  destruct (series_min_spec _ _ Hlo) as [Hlo_in Hlo_le].
  destruct (series_max_spec _ _ Hhi) as [Hhi_in Hhi_le].
  exists mass, lo, hi, rest. split; [exact Hlast|].
  split; [|split; [|split]].
  - apply in_map_iff in Hlo_in. destruct Hlo_in as [r [Hr Hin]].
    exists r. split; assumption.
  - apply in_map_iff in Hhi_in. destruct Hhi_in as [r [Hr Hin]].
    exists r. split; assumption.
  - intros r x Hin Hx. split.
    + apply Hlo_le. apply in_map_iff. exists r. split; assumption.
    + apply Hhi_le. apply in_map_iff. exists r. split; assumption.
  - reflexivity.
Qed.

Lemma print_summary_opening_witness :
  exists mass lo hi rest,
    cell_at (columns flight) "mass" (last (rows flight) []) = Some mass /\
    (exists r, In r (rows flight) /\ cell_at (columns flight) "t" r = Some lo) /\
    (exists r, In r (rows flight) /\ cell_at (columns flight) "t" r = Some hi) /\
    (forall r x, In r (rows flight) ->
                 cell_at (columns flight) "t" r = Some x ->
                 lo <= x /\ x <= hi) /\
    trace (print_summary flight) =
      (banner ++
       [Print [NL; Str "Time range: "; Fixed 2 lo; Str "s - "; Fixed 2 hi;
               Str "s ("; Fixed 2 (hi - lo); Str "s total)"];
        Print [Str "Samples: "; Int (List.length (rows flight))];
        Print [Str "Mass: "; Fixed 1 mass; Str " kg"];
        Print [Str "Weight: "; Fixed 0 (mass * 9.81); Str " N"]] ++
       rest)%list.
Proof.
  apply (print_summary_opening flight (trace (print_summary flight))).
  vm_compute. reflexivity.
Defined.

(** ** The altitude statistics *)



(** ** The grounded share *)

Lemma filter_eq (df : DataFrame) (name : string) (k : Q) :
  In name (columns df) ->
  filter df (eq (col name) (lit k)) =
  Ok (mkDataFrame (columns df)
        (List.filter (fun r => equalsb k (cell_at (columns df) name r))
           (rows df))).
Proof.
  intro H. destruct (index_of_In _ _ H) as [i Hi].
  unfold filter, cell_at. simpl. unfold eval_cmp. simpl.
  unfold get_column. rewrite Hi, zip_with_map, keep_map.
  f_equal. f_equal. apply filter_ext. intro r.
  unfold equalsb. destruct (cell_nth i r) as [x|]; simpl; [|reflexivity].
  destruct (Qeq_bool x k); reflexivity.
Qed.

Lemma Qlen_filter_bounds (df : DataFrame) (p : row -> bool) :
  0 <= inject_Z (Z.of_nat (List.length (List.filter p (rows df)))) /\
  inject_Z (Z.of_nat (List.length (List.filter p (rows df)))) <= Qlen df.
Proof.
  unfold Qlen, height. rewrite <- !Zle_Qle.
  pose proof (filter_length_le p (rows df)). change 0 with (inject_Z 0).
  rewrite <- Zle_Qle. lia.
Qed.

(** X14.  On a table that has rows and a [grounded] column, the grounded block
    runs to its end: it prints its heading and the share of the rows
    whose [grounded] equals 1, as a percentage between 0 and 100.  A row
    whose [grounded] is missing or any other number counts as not
    grounded. *)
Theorem summary_grounded_percentage (df : DataFrame) :
  rows df <> [] ->
  In "grounded" (columns df) ->
  exists g,
    filter df (eq (col "grounded") (lit 1)) = Ok g /\
    (forall r, In r (rows g) <->
       In r (rows df) /\ equals 1 (cell_at (columns df) "grounded" r)) /\
    summary_grounded df =
      ([Print [NL; Str "--- Grounded ---"];
        Print [Str "  Time grounded: "; Fixed 1 (Qlen g / Qlen df * 100);
               Str "%"]], Ok tt) /\
    0 <= Qlen g / Qlen df * 100 /\
    Qlen g / Qlen df * 100 <= 100.
Proof.
  intros Hne Hg. pose proof (filter_eq df "grounded" 1 Hg) as Hf.
  destruct (Qlen_nonzero df Hne) as [Hnz Hpos].
  eexists. split; [exact Hf|]. split; [|split].
  - intro r. simpl. rewrite filter_In, equalsb_spec. reflexivity.
  - unfold summary_grounded. rewrite Hf. unfold py_div. rewrite Hnz.
    reflexivity.
  - unfold Qlen at 1 3. unfold height. simpl rows.
    destruct (Qlen_filter_bounds df
                (fun r => equalsb 1 (cell_at (columns df) "grounded" r)))
      as [H0 H1].
    set (n := inject_Z (Z.of_nat (List.length
                 (List.filter
                    (fun r => equalsb 1 (cell_at (columns df) "grounded" r))
                    (rows df))))) in *.
    assert (Hlo : 0 <= n / Qlen df)
      by (apply Qle_shift_div_l; [exact Hpos | lra]).
    assert (Hhi : n / Qlen df <= 1)
      by (apply Qle_shift_div_r; [exact Hpos | lra]).
    split; lra.
Qed.

Lemma summary_grounded_percentage_witness :
  exists g,
    filter flight (eq (col "grounded") (lit 1)) = Ok g /\
    (forall r, In r (rows g) <->
       In r (rows flight) /\
       equals 1 (cell_at (columns flight) "grounded" r)) /\
    summary_grounded flight =
      ([Print [NL; Str "--- Grounded ---"];
        Print [Str "  Time grounded: ";
               Fixed 1 (Qlen g / Qlen flight * 100); Str "%"]], Ok tt) /\
    0 <= Qlen g / Qlen flight * 100 /\
    Qlen g / Qlen flight * 100 <= 100.
Proof.
  apply (summary_grounded_percentage flight).
  - discriminate.
  - simpl. tauto.
Defined.

(** ** The sections of the summary *)

Lemma summary_range_headings (df : DataFrame) (tr : list event) (weight : Q) :
  summary_range df = (tr, Ok weight) -> List.filter is_heading tr = [].
Proof. intro H. unfold summary_range in H. io_inv. subst. reflexivity. Qed.

Lemma summary_altitude_headings (df : DataFrame) (tr : list event) :
  summary_altitude df = (tr, Ok tt) ->
  List.filter is_heading tr = [Print [NL; Str "--- Altitude ---"]].
Proof. intro H. unfold summary_altitude in H. io_inv; subst; reflexivity. Qed.

Lemma summary_velocity_headings (df : DataFrame) (tr : list event) :
  summary_velocity df = (tr, Ok tt) ->
  List.filter is_heading tr = [Print [NL; Str "--- Velocity ---"]].
Proof. intro H. unfold summary_velocity in H. io_inv; subst; reflexivity. Qed.

Lemma summary_forces_headings (df : DataFrame) (weight : Q) (tr : list event) :
  summary_forces df weight = (tr, Ok tt) ->
  List.filter is_heading tr = [Print [NL; Str "--- Forces ---"]].
Proof. intro H. unfold summary_forces in H. io_inv; subst; reflexivity. Qed.

Lemma summary_grounded_headings (df : DataFrame) (tr : list event) :
  summary_grounded df = (tr, Ok tt) ->
  List.filter is_heading tr = [Print [NL; Str "--- Grounded ---"]].
Proof. intro H. unfold summary_grounded in H. io_inv; subst; reflexivity. Qed.

Lemma summary_problems_headings (df : DataFrame) (weight : Q)
  (tr : list event) :
  summary_problems df weight = (tr, Ok tt) ->
  List.filter is_heading tr = [Print [NL; Str "--- PROBLEM DETECTION ---"]].
Proof. intro H. unfold summary_problems in H. io_inv; subst; reflexivity. Qed.

(** X15.  If the summary runs to its end, its sections come in a fixed order:
    the banner first, then the headings Altitude, Velocity, Forces,
    Grounded and PROBLEM DETECTION, each printed once. *)
Theorem print_summary_sections (df : DataFrame) (tr : list event) :
  print_summary df = (tr, Ok tt) ->
  firstn 3 tr = banner /\
  List.filter is_heading tr =
    [Print [NL; Str "--- Altitude ---"];
     Print [NL; Str "--- Velocity ---"];
     Print [NL; Str "--- Forces ---"];
     Print [NL; Str "--- Grounded ---"];
     Print [NL; Str "--- PROBLEM DETECTION ---"]].
Proof.
  intro H. unfold print_summary in H.
  apply bind_Ok_inv in H. destruct H as (t1 & [] & t1' & H1 & H & ->).
  apply bind_Ok_inv in H. destruct H as (t2 & weight & t2' & H2 & H & ->).
  apply bind_Ok_inv in H. destruct H as (t3 & [] & t3' & H3 & H & ->).
  apply bind_Ok_inv in H. destruct H as (t4 & [] & t4' & H4 & H & ->).
  apply bind_Ok_inv in H. destruct H as (t5 & [] & t5' & H5 & H & ->).
  apply bind_Ok_inv in H. destruct H as (t6 & [] & t6' & H6 & H & ->).
  unfold summary_header in H1. injection H1 as <-.
  apply summary_range_headings in H2.
  apply summary_altitude_headings in H3.
  apply summary_velocity_headings in H4.
  apply summary_forces_headings in H5.
  apply summary_grounded_headings in H6.
  apply summary_problems_headings in H.
  split; [reflexivity|].
  rewrite !filter_app, H2, H3, H4, H5, H6, H. reflexivity.
Qed.

Lemma print_summary_sections_witness :
  firstn 3 (trace (print_summary flight)) = banner /\
  List.filter is_heading (trace (print_summary flight)) =
    [Print [NL; Str "--- Altitude ---"];
     Print [NL; Str "--- Velocity ---"];
     Print [NL; Str "--- Forces ---"];
     Print [NL; Str "--- Grounded ---"];
     Print [NL; Str "--- PROBLEM DETECTION ---"]].
Proof.
  apply (print_summary_sections flight (trace (print_summary flight))).
  vm_compute. reflexivity.
Defined.

(** ** The context report *)

(** The window around the first match holds the first match. *)
Lemma first_match_in_context (df found ctx : DataFrame) (ts : Series)
  (x first_time : Q) (r : row) (rest : list row) :
  columns found = columns df ->
  Subseq (rows found) (rows df) ->
  get_column found "t" = Ok ts ->
  item_first ts = Ok (Some x) ->
  py_num (Some x) = Ok first_time ->
  get_context df first_time 0.3 = Ok ctx ->
  rows found = r :: rest ->
  x = first_time /\
  cell_at (columns df) "t" r = Some first_time /\
  In r (rows ctx).
Proof.
  intros Hcols Hsub Hts Hitem Hnum Hctx Hrows.
  simpl in Hnum. injection Hnum as <-.
  destruct (get_column_Ok _ _ _ Hts) as [Hin ->].
  rewrite Hcols in *. rewrite Hrows in Hitem. simpl in Hitem.
  injection Hitem as Hcell.
  split; [reflexivity|]. split; [exact Hcell|].
  unfold get_context in Hctx. rewrite filter_between in Hctx by exact Hin.
  injection Hctx as <-. simpl. apply filter_In. split.
  - apply (Subseq_In _ _ Hsub). rewrite Hrows. left. reflexivity.
  - apply withinb_spec. exists x. split; [exact Hcell|]. split; lra.
Qed.

Ltac context_block df :=
  let r := fresh "r" in
  let rest := fresh "rest" in
  let Hrows := fresh "Hrows" in
  intros r rest Hrows;
  first
    [ match goal with
      | E : (0 <? height ?f)%nat = false, Hr : rows ?f = _ :: _ |- _ =>
          unfold height in E; rewrite Hr in E; discriminate E
      end
    | match goal with
      | Hf : filter df _ = Ok ?f,
        Hr : rows ?f = r :: rest,
        Hc : get_column ?f "t" = Ok ?ts,
        Hi : item_first ?ts = Ok (Some ?x),
        Hp : py_num (Some ?x) = Ok ?ft,
        Hg : get_context df ?ft 0.3 = Ok ?ctx,
        Hs : select ?ctx context_cols = Ok ?shown |- _ =>
          destruct (filter_subtable _ _ _ Hf) as [Hcols Hsub];
          destruct (first_match_in_context df f ctx ts x ft r rest
                      Hcols Hsub Hc Hi Hp Hg Hr) as [Hx [Hcell Hin]];
          subst x;
          exists ft, ctx, shown;
          split; [exact Hcell|]; split; [exact Hg|]; split; [exact Hin|];
          split; [exact Hs|];
          split; unfold context_title; simpl;
          repeat (first [left; reflexivity | right])
      end ].

(** X16.  If the context report runs to its end, then with the mass of the
    last row as the weight: when neither [find_high_velocity] with 15.0
    nor [find_force_spikes] with ratio 5.0 finds a row it prints
    nothing; for each of the two that finds rows it prints a title with
    the time of the first row found and the table of the samples within
    0.3 s of that time, under the five context columns; that window
    always holds the row that set it off. *)
Theorem print_problem_context_blocks (df : DataFrame) (tr : list event) :
  print_problem_context df = (tr, Ok tt) ->
  exists mass hv fs,
    last_mass df = Ok mass /\
    find_high_velocity df 15.0 = Ok hv /\
    find_force_spikes df (mass * 9.81) 5.0 = Ok fs /\
    (rows hv = [] -> rows fs = [] -> tr = []) /\
    (forall r rest, rows hv = r :: rest ->
       exists t1 ctx shown,
         cell_at (columns df) "t" r = Some t1 /\
         get_context df t1 0.3 = Ok ctx /\
         In r (rows ctx) /\
         select ctx context_cols = Ok shown /\
         In (Print (context_title "CONTEXT: First high v_vel at t=" t1)) tr /\
         In (Print [Table (mkConfig 50 fmt_float_default) shown]) tr) /\
    (forall r rest, rows fs = r :: rest ->
       exists t1 ctx shown,
         cell_at (columns df) "t" r = Some t1 /\
         get_context df t1 0.3 = Ok ctx /\
         In r (rows ctx) /\
         select ctx context_cols = Ok shown /\
         In (Print (context_title "CONTEXT: First force spike at t=" t1)) tr /\
         In (Print [Table (mkConfig 50 fmt_float_default) shown]) tr).
Proof.
  intro H. unfold print_problem_context in H.
  unfold find_high_velocity, find_force_spikes in *.
  io_inv; subst;
    match goal with
    | Hm : get_column df "mass" = Ok ?m,
      Hi : item_last ?m = Ok ?c,
      Hn : py_num ?c = Ok ?x |- _ =>
        exists x;
        assert (Hmass : last_mass df = Ok x)
          by (unfold last_mass; rewrite Hm; simpl; rewrite Hi; simpl;
              exact Hn)
    end;
    (eexists; eexists; split; [exact Hmass|];
     split; [eassumption|]; split; [eassumption|]);
    (split; [|split; [context_block df | context_block df]]);
    intros Hhv Hfs;
    repeat match goal with
           | E : (0 <? height ?f)%nat = true, Hr : rows ?f = [] |- _ =>
               unfold height in E; rewrite Hr in E; discriminate E
           end;
    reflexivity.
Qed.

Lemma print_problem_context_blocks_witness :
  exists mass hv fs,
    last_mass flight = Ok mass /\
    find_high_velocity flight 15.0 = Ok hv /\
    find_force_spikes flight (mass * 9.81) 5.0 = Ok fs /\
    (rows hv = [] -> rows fs = [] ->
     trace (print_problem_context flight) = []) /\
    (forall r rest, rows hv = r :: rest ->
       exists t1 ctx shown,
         cell_at (columns flight) "t" r = Some t1 /\
         get_context flight t1 0.3 = Ok ctx /\
         In r (rows ctx) /\
         select ctx context_cols = Ok shown /\
         In (Print (context_title "CONTEXT: First high v_vel at t=" t1))
            (trace (print_problem_context flight)) /\
         In (Print [Table (mkConfig 50 fmt_float_default) shown])
            (trace (print_problem_context flight))) /\
    (forall r rest, rows fs = r :: rest ->
       exists t1 ctx shown,
         cell_at (columns flight) "t" r = Some t1 /\
         get_context flight t1 0.3 = Ok ctx /\
         In r (rows ctx) /\
         select ctx context_cols = Ok shown /\
         In (Print (context_title "CONTEXT: First force spike at t=" t1))
            (trace (print_problem_context flight)) /\
         In (Print [Table (mkConfig 50 fmt_float_default) shown])
            (trace (print_problem_context flight))).
Proof.
  apply (print_problem_context_blocks flight
           (trace (print_problem_context flight))).
  vm_compute. reflexivity.
Defined.

(** ** The velocity and the forces block *)

Lemma get_column_In (df : DataFrame) (name : string) :
  In name (columns df) ->
  get_column df name = Ok (map (cell_at (columns df) name) (rows df)).
Proof.
  intro H. destruct (index_of_In _ _ H) as [i Hi].
  unfold get_column, cell_at. rewrite Hi. reflexivity.
Qed.

Lemma column_has_value (df : DataFrame) (name : string) :
  (exists r x, In r (rows df) /\ cell_at (columns df) name r = Some x) ->
  non_null (map (cell_at (columns df) name) (rows df)) <> [].
Proof.
  intros [r [x [Hin Hx]]] Hnil.
  assert (Hi : In x (non_null (map (cell_at (columns df) name) (rows df)))).
  { apply non_null_iff, in_map_iff. exists r. split; assumption. }
  rewrite Hnil in Hi. destruct Hi.
Qed.

(** X17.  On a table with the columns [speed] and [v_vel], each holding at
    least one number, the velocity block runs to its end: it prints the
    largest speed, also times 3.6 as km/h, then the largest and the
    smallest [v_vel].  Every speed of the table is at most the printed
    one, and every [v_vel] lies between the two printed ones; missing
    values are skipped. *)
Theorem summary_velocity_extremes (df : DataFrame) :
  In "speed" (columns df) ->
  In "v_vel" (columns df) ->
  (exists r x, In r (rows df) /\ cell_at (columns df) "speed" r = Some x) ->
  (exists r x, In r (rows df) /\ cell_at (columns df) "v_vel" r = Some x) ->
  exists top up down,
    summary_velocity df =
      ([Print [NL; Str "--- Velocity ---"];
        Print [Str "  Max speed: "; Fixed 1 top; Str " m/s (";
               Fixed 1 (top * 3.6); Str " km/h)"];
        Print [Str "  Max v_vel (up): "; Fixed 2 up; Str " m/s"];
        Print [Str "  Min v_vel (down): "; Fixed 2 down; Str " m/s"]],
       Ok tt) /\
    down <= up /\
    (forall r x, In r (rows df) -> cell_at (columns df) "speed" r = Some x ->
                 x <= top) /\
    (forall r x, In r (rows df) -> cell_at (columns df) "v_vel" r = Some x ->
                 down <= x /\ x <= up).
Proof.
  intros Hs Hv Hsome_s Hsome_v.
  pose proof (get_column_In df "speed" Hs) as Hcs.
  pose proof (get_column_In df "v_vel" Hv) as Hcv.
  destruct (aggregates_defined _ (column_has_value df "speed" Hsome_s))
    as [_ [top [_ [_ [Htop _]]]]].
  destruct (aggregates_defined _ (column_has_value df "v_vel" Hsome_v))
    as [down [up [_ [Hdown [Hup _]]]]].
  destruct (series_max_spec _ _ Htop) as [_ Htop_le].
  destruct (series_max_spec _ _ Hup) as [_ Hup_le].
  destruct (series_min_spec _ _ Hdown) as [Hdown_in Hdown_le].
  exists top, up, down. split; [|split; [|split]].
  - unfold summary_velocity. rewrite Hcs, Hcv.
    unfold bind, lift, print. cbv beta iota.
    rewrite Htop, Hup, Hdown. reflexivity.
  - apply Hup_le, Hdown_in.
  - intros r x Hin Hx. apply Htop_le, in_map_iff.
    exists r. split; assumption.
  - intros r x Hin Hx. split; [apply Hdown_le | apply Hup_le];
      apply in_map_iff; exists r; split; assumption.
Qed.

Lemma summary_velocity_extremes_witness :
  exists top up down,
    summary_velocity flight =
      ([Print [NL; Str "--- Velocity ---"];
        Print [Str "  Max speed: "; Fixed 1 top; Str " m/s (";
               Fixed 1 (top * 3.6); Str " km/h)"];
        Print [Str "  Max v_vel (up): "; Fixed 2 up; Str " m/s"];
        Print [Str "  Min v_vel (down): "; Fixed 2 down; Str " m/s"]],
       Ok tt) /\
    down <= up /\
    (forall r x, In r (rows flight) ->
                 cell_at (columns flight) "speed" r = Some x -> x <= top) /\
    (forall r x, In r (rows flight) ->
                 cell_at (columns flight) "v_vel" r = Some x ->
                 down <= x /\ x <= up).
Proof.
  apply (summary_velocity_extremes flight).
  - simpl. tauto.
  - simpl. tauto.
  - exists (sample 0.0 0.5 0 1 12000 1 0 1200), 1.
    split; [simpl; tauto | reflexivity].
  - exists (sample 0.0 0.5 0 1 12000 1 0 1200), 0.
    split; [simpl; tauto | reflexivity].
Defined.

(** X18.  A log without a grounded sample stops the summary in the forces
    block: on a table with the columns [hover_mag] (holding a number)
    and [grounded], of which no row has [grounded] equal to 1, and with a
    weight other than zero, the block prints its heading, the largest
    hover force and its ratio to the weight, and then raises
    [TypeError], because the mean over no sample is [None]. *)
Theorem summary_forces_airborne (df : DataFrame) (weight : Q) :
  In "hover_mag" (columns df) ->
  In "grounded" (columns df) ->
  (exists r x, In r (rows df) /\ cell_at (columns df) "hover_mag" r = Some x) ->
  (forall r, In r (rows df) ->
             ~ equals 1 (cell_at (columns df) "grounded" r)) ->
  ~ weight == 0 ->
  exists top,
    summary_forces df weight =
      ([Print [NL; Str "--- Forces ---"];
        Print [Str "  Max hover force: "; Fixed 0 top; Str " N"];
        Print [Str "  Max hover/weight: "; Fixed 2 (top / weight); Str "x"]],
       Raise TypeError) /\
    (forall r x, In r (rows df) ->
                 cell_at (columns df) "hover_mag" r = Some x -> x <= top).
Proof.
  intros Hh Hg Hsome Hair Hw.
  pose proof (get_column_In df "hover_mag" Hh) as Hch.
  destruct (aggregates_defined _ (column_has_value df "hover_mag" Hsome))
    as [_ [top [_ [_ [Htop _]]]]].
  destruct (series_max_spec _ _ Htop) as [_ Htop_le].
  assert (Hq : Qeq_bool weight 0 = false).
  { destruct (Qeq_bool weight 0) eqn:E; [|reflexivity].
    apply Qeq_bool_iff in E. contradiction. }
  assert (Hnone :
    List.filter (fun r => equalsb 1 (cell_at (columns df) "grounded" r))
      (rows df) = []).
  { assert (Hall : forall l, (forall r, In r l -> In r (rows df)) ->
       List.filter (fun r => equalsb 1 (cell_at (columns df) "grounded" r)) l
       = []).
    { induction l as [|r l IH]; intro Hl; simpl; [reflexivity|].
      destruct (equalsb 1 (cell_at (columns df) "grounded" r)) eqn:E.
      - apply equalsb_spec in E. exfalso.
        exact (Hair r (Hl r (or_introl eq_refl)) E).
      - apply IH. intros r' Hr'. apply Hl. right. exact Hr'. }
    apply Hall. auto. }
  exists top. split.
  - unfold summary_forces. rewrite Hch, (filter_eq df "grounded" 1 Hg), Hnone.
    unfold py_div. rewrite Hq.
    unfold bind, lift, print. cbv beta iota.
    rewrite Htop. cbn [fmt py_num]. cbv beta iota.
    destruct (index_of_In _ _ Hh) as [i Hi].
    unfold get_column. cbn [columns rows]. rewrite Hi. reflexivity.
  - intros r x Hin Hx. apply Htop_le, in_map_iff.
    exists r. split; assumption.
Qed.

Lemma summary_forces_airborne_witness :
  exists top,
    summary_forces
      (mkDataFrame ["hover_mag"; "grounded"] [[Some 500; Some 0]]) 981 =
      ([Print [NL; Str "--- Forces ---"];
        Print [Str "  Max hover force: "; Fixed 0 top; Str " N"];
        Print [Str "  Max hover/weight: "; Fixed 2 (top / 981); Str "x"]],
       Raise TypeError) /\
    (forall r x,
       In r (rows (mkDataFrame ["hover_mag"; "grounded"]
                     [[Some 500; Some 0]])) ->
       cell_at (columns (mkDataFrame ["hover_mag"; "grounded"]
                          [[Some 500; Some 0]])) "hover_mag" r = Some x ->
       x <= top).
Proof.
  apply (summary_forces_airborne
           (mkDataFrame ["hover_mag"; "grounded"] [[Some 500; Some 0]]) 981).
  - simpl. tauto.
  - simpl. tauto.
  - exists [Some 500; Some 0], 500. split; [simpl; tauto | reflexivity].
  - intros r [<-|[]] [x [Hx Hone]]. injection Hx as <-. discriminate Hone.
  - discriminate.
Defined.

(** ** Well-formed tables *)

(** X19.  The detectors keep tables well formed: on a table whose rows are all
    as wide as its schema, each detector returns a table whose rows are
    all as wide as its own schema, also [find_launches], whose schema may
    have gained the [v_vel_delta] column. *)
Theorem detectors_keep_well_formed (df : DataFrame) (k w r c win : Q) :
  well_formed df ->
  In "v_vel" (columns df) ->
  In "hover_mag" (columns df) ->
  In "t" (columns df) ->
  exists hv fs ctx la,
    find_high_velocity df k = Ok hv /\ well_formed hv /\
    find_force_spikes df w r = Ok fs /\ well_formed fs /\
    get_context df c win = Ok ctx /\ well_formed ctx /\
    find_launches df k = Ok la /\ well_formed la /\
    List.length (columns la) =
      (if has_column "v_vel_delta" (columns df)
       then List.length (columns df)
       else S (List.length (columns df))).
Proof.
  intros Hwf Hv Hh Ht.
  destruct (find_high_velocity df k) as [hv|] eqn:Ehv;
    [|unfold find_high_velocity in Ehv;
      rewrite filter_gt in Ehv by exact Hv; discriminate].
  destruct (find_force_spikes df w r) as [fs|] eqn:Efs;
    [|rewrite find_force_spikes_exact in Efs by exact Hh; discriminate].
  destruct (get_context df c win) as [ctx|] eqn:Ectx;
    [|unfold get_context in Ectx;
      rewrite filter_between in Ectx by exact Ht; discriminate].
  destruct (find_launches df k) as [la|] eqn:Ela;
    [|rewrite find_launches_rows in Ela by assumption; discriminate].
  exists hv, fs, ctx, la.
  split; [reflexivity|]. split; [exact (filter_well_formed _ _ _ Hwf Ehv)|].
  split; [reflexivity|]. split; [exact (filter_well_formed _ _ _ Hwf Efs)|].
  split; [reflexivity|]. split; [exact (filter_well_formed _ _ _ Hwf Ectx)|].
  split; [reflexivity|].
  split; [exact (find_launches_well_formed _ _ _ Hwf Hv Ela)|].
  rewrite find_launches_rows in Ela by assumption. injection Ela as <-.
  simpl. unfold put_name, has_column.
  destruct (index_of "v_vel_delta" (columns df)); [reflexivity|].
  rewrite length_app. simpl. lia.
Qed.

Lemma detectors_keep_well_formed_witness :
  exists hv fs ctx la,
    find_high_velocity flight 10 = Ok hv /\ well_formed hv /\
    find_force_spikes flight 11772 3 = Ok fs /\ well_formed fs /\
    get_context flight 0.2 0.1 = Ok ctx /\ well_formed ctx /\
    find_launches flight 10 = Ok la /\ well_formed la /\
    List.length (columns la) =
      (if has_column "v_vel_delta" (columns flight)
       then List.length (columns flight)
       else S (List.length (columns flight))).
Proof.
  apply (detectors_keep_well_formed flight 10 11772 3 0.2 0.1).
  - unfold well_formed. simpl. repeat constructor.
  - simpl. tauto.
  - simpl. tauto.
  - simpl. tauto.
Defined.
